(** * wonda: mean pooling, ONNX export and export verification

    A shallow embedding of [scripts/verify_onnx_export.py] and
    [scripts/export_gtr_t5_to_onnx.py].

    Tensor entries are torch floats.  They are modelled as exact rationals
    together with the three IEEE-754 special values, with the IEEE rules for
    the special values ([inf * 0 = nan], [x / 0 = inf], [0 / 0 = nan], ...).
    Rounding, overflow of finite results and the sign of zero are not
    modelled: finite arithmetic is exact.  *)

From Stdlib Require Import String List ZArith QArith Qcanon Bool Lia.
Import ListNotations.
Close Scope Qc_scope.
Close Scope Q_scope.

(** ** Scalars *)

Module Scalar.
Local Open Scope Qc_scope.

Inductive val : Type :=
| Fin (q : Qc)
| PInf
| NInf
| NaN.

Definition vzero : val := Fin 0.
Definition vone : val := Fin 1.

Definition is_finite (x : val) : bool :=
  match x with Fin _ => true | _ => false end.


Definition zero_or_nan (x : val) : Prop := x = vzero \/ x = NaN.

Definition Qc_ltb (a b : Qc) : bool :=
  match a ?= b with Lt => true | _ => false end.

Definition Qc_eqb (a b : Qc) : bool :=
  match a ?= b with Eq => true | _ => false end.

(** The infinity with the sign of [q] times [pos], [nan] when [q = 0]. *)
Definition inf_times (pos : bool) (q : Qc) : val :=
  if Qc_eqb q 0 then NaN
  else if Bool.eqb pos (Qc_ltb 0 q) then PInf else NInf.

Definition vadd (x y : val) : val :=
  match x, y with
  | NaN, _ | _, NaN => NaN
  | Fin a, Fin b => Fin (a + b)
  | PInf, NInf | NInf, PInf => NaN
  | PInf, _ | _, PInf => PInf
  | NInf, _ | _, NInf => NInf
  end.

Definition vneg (x : val) : val :=
  match x with
  | Fin a => Fin (- a)
  | PInf => NInf
  | NInf => PInf
  | NaN => NaN
  end.

Definition vsub (x y : val) : val := vadd x (vneg y).

Definition vmul (x y : val) : val :=
  match x, y with
  | NaN, _ | _, NaN => NaN
  | Fin a, Fin b => Fin (a * b)
  | PInf, Fin b | Fin b, PInf => inf_times true b
  | NInf, Fin b | Fin b, NInf => inf_times false b
  | PInf, PInf | NInf, NInf => PInf
  | PInf, NInf | NInf, PInf => NInf
  end.

Definition vdiv (x y : val) : val :=
  match x, y with
  | NaN, _ | _, NaN => NaN
  | Fin a, Fin b =>
      if Qc_eqb b 0 then inf_times true a else Fin (a / b)
  | Fin _, _ => Fin 0
  | PInf, Fin b => if Qc_ltb b 0 then NInf else PInf
  | NInf, Fin b => if Qc_ltb b 0 then PInf else NInf
  | _, _ => NaN
  end.

(** [x > y] on floats: false as soon as one side is [nan]. *)
Definition vgt (x y : val) : bool :=
  match x, y with
  | NaN, _ | _, NaN => false
  | Fin a, Fin b => Qc_ltb b a
  | PInf, PInf => false
  | PInf, _ => true
  | _, NInf => match x with NInf => false | _ => true end
  | _, _ => false
  end.

(** [torch.clamp(x, min=lo)]: [nan] stays [nan]. *)
Definition clamp_min (x lo : val) : val :=
  match x with
  | NaN => NaN
  | _ => if vgt lo x then lo else x
  end.

(** [tensor.float()] on an integer entry. *)
Definition of_Z (z : Z) : val := Fin (Q2Qc (inject_Z z)).

Definition val_eqb (x y : val) : bool :=
  match x, y with
  | Fin a, Fin b => Qc_eqb a b
  | PInf, PInf | NInf, NInf | NaN, NaN => true
  | _, _ => false
  end.

End Scalar.
Export Scalar.

(** ** Tensors and the mean-pooling reducer *)

Module Pooling.

(** A float tensor of shape [(length rows, ncols)].  The batch axis of the
    script's tensors has size one (the tokenizer is called on one sentence)
    and is left out. *)
Record Tensor : Type := mkTensor {
  ncols : nat;
  rows : list (list val)
}.

Definition wf_tensor (t : Tensor) : Prop :=
  Forall (fun r => length r = ncols t) (rows t).

Definition all_finite (t : Tensor) : Prop :=
  Forall (Forall (fun x => is_finite x = true)) (rows t).

(** What the inference graph returns; [model_output[0]] is its first item. *)
Record ModelOutput : Type := mkOutput {
  last_hidden_state : Tensor
}.

Fixpoint map2 {A B C : Type} (f : A -> B -> C) (xs : list A) (ys : list B)
  : list C :=
  match xs, ys with
  | x :: xs', y :: ys' => f x y :: map2 f xs' ys'
  | _, _ => []
  end.

(** [mask.unsqueeze(-1).expand((L, D))]: the trailing axis of size one is
    repeated [D] times; the leading axis must have size [L], or size one, in
    which case it is repeated too.  Anything else is a RuntimeError. *)
Definition expand (mask : list Z) (L D : nat) : option (list (list Z)) :=
  if Nat.eqb (length mask) L then Some (map (fun m => repeat m D) mask)
  else match mask with
       | [m] => Some (repeat (repeat m D) L)
       | _ => None
       end.

(** [torch.sum(x, 1)] on a tensor with [D] columns. *)
Definition sum1 (D : nat) (x : list (list val)) : list val :=
  map (fun d => fold_left vadd (map (fun r => nth d r vzero) x) vzero)
      (seq 0 D).

Definition eps : val := Fin (Q2Qc (1 # 1000000000)).

Definition mean_pooling (model_output : ModelOutput) (attention_mask : list Z)
  : option (list val) :=
  let token_embeddings := last_hidden_state model_output in
  let L := length (rows token_embeddings) in
  let D := ncols token_embeddings in
  match expand attention_mask L D with
  | None => None
  | Some expanded =>
      let input_mask_expanded := map (map of_Z) expanded in
      Some (map2 vdiv
              (sum1 D (map2 (map2 vmul) (rows token_embeddings)
                            input_mask_expanded))
              (map (fun s => clamp_min s eps) (sum1 D input_mask_expanded)))
  end.

(** Vectors of [D] components and their sum. *)
Definition vec_add (u v : list val) : list val := map2 vadd u v.

Definition vec_sum (D : nat) (vs : list (list val)) : list val :=
  fold_left vec_add vs (repeat vzero D).


(** The value the specification gives for an all-padding input: the sum of
    the token vectors, every component divided by epsilon. *)
Definition sum_over_eps (t : Tensor) : list val :=
  map (fun s => vdiv s eps) (vec_sum (ncols t) (rows t)).

(** The token vectors a 0/1 mask keeps, and what it asks of the rest. *)
Definition unmasked (h : list (list val)) (mask : list Z) : list (list val) :=
  map fst (filter (fun p => Z.eqb (snd p) 1) (combine h mask)).

Definition binary_mask (mask : list Z) : Prop :=
  Forall (fun m => m = 0%Z \/ m = 1%Z) mask.

Definition padding_finite (h : list (list val)) (mask : list Z) : Prop :=
  Forall (fun p => snd p = 0%Z -> Forall (fun x => is_finite x = true) (fst p))
         (combine h mask).

(** Decidable equality on pooled vectors. *)
Definition list_val_eqb (xs ys : list val) : bool :=
  Nat.eqb (length xs) (length ys)
  && forallb (fun p => val_eqb (fst p) (snd p)) (combine xs ys).

Definition pooled_eqb (a b : option (list val)) : bool :=
  match a, b with
  | Some xs, Some ys => list_val_eqb xs ys
  | None, None => true
  | _, _ => false
  end.

End Pooling.
Export Pooling.

(** ** Effects: external collaborators, exceptions and the output log *)

Module Effects.

(** An exception, by the name of its class.  Only subclasses of
    [Exception] are modelled. *)
Definition exn : Type := string.

Inductive res (A : Type) : Type :=
| Ok (a : A)
| Raise (e : exn).
Arguments Ok {A} a.
Arguments Raise {A} e.

(** [pathlib.Path]. *)
Inductive Path : Type :=
| PathOf (s : string)
| PathJoin (p : Path) (name : string).

(** The tokenizer's batch encoding, with the key the fallback adds. *)
Record Encoded : Type := mkEncoded {
  input_ids : list Z;
  attention_mask : list Z;
  decoder_input_ids : option (list (list Z))
}.

Definition set_decoder_input_ids (enc : Encoded) (v : list (list Z)) : Encoded :=
  {| input_ids := input_ids enc;
     attention_mask := attention_mask enc;
     decoder_input_ids := Some v |}.

Inductive json : Type :=
| JString (s : string)
| JInt (z : Z)
| JBool (b : bool).

(** The lines the two scripts print, one constructor per [print]. *)
Inductive line : Type :=
| LNotFound (p : Path)
| LRunExportFirst
| LLoadingOriginal
| LLoadingOnnx
| LTestingEmbeddings
| LRule (c : string) (n : nat)
| LTesting (i n : nat) (sentence : string)
| LOnnxError (e : exn)
| LTryingEncoderOnly
| LDimensions (n : nat)
| LCosine (c : val)
| LL2 (d : val)
| LPass
| LFail
| LAllPassed
| LUpload (p : Path)
| LSomeFailed
| LExporting (name : string)
| LOutputDirectory (p : Path)
| LLoadingModel
| LCreatingDummy
| LExportingEncoder
| LSavingTokenizer
| LExportComplete
| LModelSavedTo (p : Path)
| LFilesCreated
| LFileName (name : string).

(** What a run does to the outside world, in order. *)
Inductive event : Type :=
| EvPrint (l : line)
| EvLoadSentenceTransformer (name : string)
| EvLoadOnnxModel (p : Path)
| EvLoadTokenizer (p : Path)
| EvEncode (sentence : string)
| EvTokenize (sentence : string) (max_length : Z)
| EvOnnxCall (enc : Encoded)
| EvMkdir (p : Path)
| EvLoadAutoModel (name : string)
| EvLoadAutoTokenizer (name : string)
| EvOnnxExport (p : Path) (opset : Z)
| EvSaveTokenizer (p : Path)
| EvWriteJson (p : Path) (content : list (string * json)) (indent : Z)
| EvIterdir (p : Path).

Section Monad.
Context {S : Type}.

(** A computation over the collaborators' state [S]: it returns or raises,
    and emits events. *)
Definition M (A : Type) : Type := S -> res A * list event * S.

Definition ret {A} (a : A) : M A := fun s => (Ok a, [], s).

Definition raise {A} (e : exn) : M A := fun s => (Raise e, [], s).

Definition bind {A B} (m : M A) (f : A -> M B) : M B :=
  fun s =>
    match m s with
    | (Ok a, l, s') =>
        match f a s' with
        | (r, l', s'') => (r, l ++ l', s'')
        end
    | (Raise e, l, s') => (Raise e, l, s')
    end.

Definition print (l : line) : M unit := fun s => (Ok tt, [EvPrint l], s).

(** A call into a collaborator, logged before it returns or raises. *)
Definition call {A} (ev : event) (op : S -> res A * S) : M A :=
  fun s => match op s with (r, s') => (r, [ev], s') end.

(** [try: m except Exception as e: h e]. *)
Definition try_except {A} (m : M A) (h : exn -> M A) : M A :=
  fun s =>
    match m s with
    | (Raise e, l, s') =>
        match h e s' with
        | (r, l', s'') => (r, l ++ l', s'')
        end
    | done => done
    end.

End Monad.

(** A computation whose result and output do not depend on the state it
    starts in. *)
Definition stateless {S A : Type} (m : M (S := S) A) : Prop :=
  forall s1 s2, fst (m s1) = fst (m s2).

(** The three parts of a finished run. *)
Definition result_of {S A : Type} (run : res A * list event * S) : res A :=
  fst (fst run).

Definition log_of {S A : Type} (run : res A * list event * S) : list event :=
  snd (fst run).

Definition state_of {S A : Type} (run : res A * list event * S) : S :=
  snd run.

Declare Scope monad_scope.
Delimit Scope monad_scope with monad.
Notation "x <- m ;; k" := (bind m (fun x => k))
  (at level 61, m at next level, right associativity) : monad_scope.
Notation "m ;; k" := (bind m (fun _ => k))
  (at level 61, right associativity) : monad_scope.

End Effects.
Export Effects.

(** ** The verifier: scripts/verify_onnx_export.py *)

Module Verifier.
Local Open Scope monad_scope.
Local Open Scope string_scope.

(** The collaborators of the verifier.  [S] is whatever state they keep
    (loaded models, caches, the file system).  [np_norm] is
    [np.linalg.norm]: a square root does not stay rational, so the norm is
    left to the environment. *)
Record Env (S : Type) : Type := mkEnv {
  path_exists : Path -> S -> bool;
  SentenceTransformer : string -> S -> res unit * S;
  ORT_from_pretrained : Path -> S -> res unit * S;
  AutoTokenizer_from_pretrained : Path -> S -> res unit * S;
  encode : string -> S -> res (list val) * S;
  tokenizer : string -> Z -> S -> res Encoded * S;
  onnx_model : Encoded -> S -> res ModelOutput * S;
  np_norm : list val -> val
}.
Arguments path_exists {S} _ _ _.
Arguments SentenceTransformer {S} _ _ _.
Arguments ORT_from_pretrained {S} _ _ _.
Arguments AutoTokenizer_from_pretrained {S} _ _ _.
Arguments encode {S} _ _ _.
Arguments tokenizer {S} _ _ _ _.
Arguments onnx_model {S} _ _ _.
Arguments np_norm {S} _ _.

Definition test_sentences : list string :=
  [ "Hello, world!";
    "The quick brown fox jumps over the lazy dog.";
    "My mother was a sensitive but loving person.";
    "Artificial intelligence is transforming technology." ].

Definition threshold : val := Fin (Q2Qc (999 # 1000)).

(** [np.dot] on two one-dimensional arrays. *)
Definition np_dot (a b : list val) : val :=
  fold_left vadd (map2 vmul a b) vzero.

Fixpoint enumerate {A : Type} (start : nat) (xs : list A) : list (nat * A) :=
  match xs with
  | [] => []
  | x :: xs' => (start, x) :: enumerate (S start) xs'
  end.

Section WithEnv.
Context {S : Type} (env : Env S).

(** Lines 56-65: the graph call, and on an exception the one retry with
    [decoder_input_ids = zeros((1, 1))].  The retry is not guarded. *)
Definition call_onnx (encoded : Encoded) : M (S := S) (ModelOutput * Encoded) :=
  try_except
    (onnx_output <- call (EvOnnxCall encoded) (onnx_model env encoded) ;;
     ret (onnx_output, encoded))
    (fun e =>
       print (LOnnxError e) ;;
       print LTryingEncoderOnly ;;
       let encoded' := set_decoder_input_ids encoded [[0%Z]] in
       onnx_output <- call (EvOnnxCall encoded') (onnx_model env encoded') ;;
       ret (onnx_output, encoded')).

(** Lines 67-85: pool, compare, print and judge; it returns the new
    [all_match].  [squeeze()] drops the batch axis, and the embedding axis
    too when it has size one: [np.dot] then returns an array and formatting
    the cosine similarity raises.  Otherwise [np.dot] wants equal
    lengths. *)
Definition compare (orig_embedding : list val) (onnx_output : ModelOutput)
    (encoded : Encoded) (all_match : bool) : M (S := S) bool :=
  match mean_pooling onnx_output (attention_mask encoded) with
  | None => raise "RuntimeError"
  | Some onnx_embedding =>
      if Nat.eqb (length onnx_embedding) 1 then
        print (LDimensions (length orig_embedding)) ;;
        raise "TypeError"
      else if negb (Nat.eqb (length orig_embedding) (length onnx_embedding)) then
        raise "ValueError"
      else
        let cosine_sim :=
          vdiv (np_dot orig_embedding onnx_embedding)
               (vmul (np_norm env orig_embedding) (np_norm env onnx_embedding)) in
        let l2_distance := np_norm env (map2 vsub orig_embedding onnx_embedding) in
        print (LDimensions (length orig_embedding)) ;;
        print (LCosine cosine_sim) ;;
        print (LL2 l2_distance) ;;
        if vgt cosine_sim threshold then
          print LPass ;;
          ret all_match
        else
          print LFail ;;
          ret false
  end.

(** Lines 49-85: the body of the loop. *)
Definition probe (n i : nat) (sentence : string) (all_match : bool) : M (S := S) bool :=
  print (LTesting i n sentence) ;;
  orig_embedding <- call (EvEncode sentence) (encode env sentence) ;;
  encoded <- call (EvTokenize sentence 512) (tokenizer env sentence 512%Z) ;;
  out <- call_onnx encoded ;;
  compare orig_embedding (fst out) (snd out) all_match.

(** The [for] loop over [enumerate(test_sentences, 1)]. *)
Fixpoint for_each (n : nat) (items : list (nat * string)) (all_match : bool)
  : M (S := S) bool :=
  match items with
  | [] => ret all_match
  | (i, sentence) :: rest =>
      all_match' <- probe n i sentence all_match ;;
      for_each n rest all_match'
  end.

(** Lines 47-94: the loop and the summary. *)
Definition probe_all (onnx_path : Path) : M (S := S) bool :=
  all_match <- for_each (length test_sentences) (enumerate 1 test_sentences) true ;;
  print (LRule "=" 80) ;;
  if all_match then
    print LAllPassed ;;
    print (LUpload onnx_path) ;;
    ret true
  else
    print LSomeFailed ;;
    ret false.

Definition verify_onnx_export (onnx_dir : string) : M (S := S) bool :=
  let model_name := "sentence-transformers/gtr-t5-base" in
  let onnx_path := PathOf onnx_dir in
  fun s =>
  if negb (path_exists env onnx_path s) then
    (print (LNotFound onnx_path) ;;
     print LRunExportFirst ;;
     ret false) s
  else
    (print LLoadingOriginal ;;
     call (EvLoadSentenceTransformer model_name) (SentenceTransformer env model_name) ;;
     print LLoadingOnnx ;;
     call (EvLoadOnnxModel onnx_path) (ORT_from_pretrained env onnx_path) ;;
     call (EvLoadTokenizer onnx_path) (AutoTokenizer_from_pretrained env onnx_path) ;;
     print LTestingEmbeddings ;;
     print (LRule "-" 80) ;;
     probe_all onnx_path) s.

(** [__main__]: the exit status of the process.  An exception that leaves
    [verify_onnx_export] ends the interpreter with status 1. *)
Definition main : S -> Z * list event * S :=
  fun s =>
    match verify_onnx_export "./gtr-t5-base-onnx" s with
    | (Ok success, l, s') => ((if success then 0 else 1)%Z, l, s')
    | (Raise _, l, s') => (1%Z, l, s')
    end.

End WithEnv.

(** The forward passes (reference embedding, tokenization, graph call)
    are deterministic: what they return or raise is a function of their
    input, whatever state the collaborators are in. *)
Definition deterministic_passes {S : Type} (env : Env S) : Prop :=
  (forall x s1 s2, fst (encode env x s1) = fst (encode env x s2))
  /\ (forall x n s1 s2, fst (tokenizer env x n s1) = fst (tokenizer env x n s2))
  /\ (forall enc s1 s2, fst (onnx_model env enc s1) = fst (onnx_model env enc s2)).

(** What a run emits between finding the directory and the first probe. *)
Definition preamble (onnx_dir : string) : list event :=
  [ EvPrint LLoadingOriginal;
    EvLoadSentenceTransformer "sentence-transformers/gtr-t5-base";
    EvPrint LLoadingOnnx;
    EvLoadOnnxModel (PathOf onnx_dir);
    EvLoadTokenizer (PathOf onnx_dir);
    EvPrint LTestingEmbeddings;
    EvPrint (LRule "-" 80) ].

(** The verdict of line 81. *)
Definition passes (c : val) : bool := vgt c threshold.

(** Reading a run's log. *)
Definition cosines (log : list event) : list val :=
  flat_map (fun e => match e with EvPrint (LCosine c) => [c] | _ => [] end) log.

Definition verdicts (log : list event) : list bool :=
  flat_map (fun e => match e with
                     | EvPrint LPass => [true]
                     | EvPrint LFail => [false]
                     | _ => []
                     end) log.

Definition tested (log : list event) : list string :=
  flat_map (fun e => match e with EvPrint (LTesting _ _ s) => [s] | _ => [] end) log.

Definition onnx_calls (log : list event) : list Encoded :=
  flat_map (fun e => match e with EvOnnxCall enc => [enc] | _ => [] end) log.

Definition is_print (e : event) : bool :=
  match e with EvPrint _ => true | _ => false end.

(** The events of the loop body: printing and the three forward passes. *)
Definition probe_event (e : event) : bool :=
  match e with
  | EvPrint _ | EvEncode _ | EvTokenize _ _ | EvOnnxCall _ => true
  | _ => false
  end.


Definition error_lines (log : list event) : list exn :=
  flat_map (fun e => match e with EvPrint (LOnnxError x) => [x] | _ => [] end) log.

Definition tokenize_lengths (log : list event) : list Z :=
  flat_map (fun e => match e with EvTokenize _ n => [n] | _ => [] end) log.

Definition loaded_references (log : list event) : list string :=
  flat_map (fun e => match e with EvLoadSentenceTransformer n => [n] | _ => [] end) log.

End Verifier.
Export Verifier.

(** ** The exporter: scripts/export_gtr_t5_to_onnx.py *)

Module Exporter.
Local Open Scope monad_scope.
Local Open Scope string_scope.

Record Env (S : Type) : Type := mkEnv {
  mkdir : Path -> S -> res unit * S;
  AutoModel_from_pretrained : string -> S -> res unit * S;
  AutoTokenizer_from_pretrained : string -> S -> res unit * S;
  tokenizer : string -> Z -> S -> res Encoded * S;
  onnx_export : Encoded -> Path -> Z -> S -> res unit * S;
  save_pretrained : Path -> S -> res unit * S;
  json_dump : Path -> list (string * json) -> Z -> S -> res unit * S;
  iterdir : Path -> S -> res (list string) * S
}.
Arguments mkdir {S} _ _ _.
Arguments AutoModel_from_pretrained {S} _ _ _.
Arguments AutoTokenizer_from_pretrained {S} _ _ _.
Arguments tokenizer {S} _ _ _ _.
Arguments onnx_export {S} _ _ _ _ _.
Arguments save_pretrained {S} _ _ _.
Arguments json_dump {S} _ _ _ _ _.
Arguments iterdir {S} _ _ _.

(** A Python dict literal, in insertion order (the order [json.dump]
    writes). *)
Definition metadata (model_name : string) : list (string * json) :=
  [ ("model_name", JString model_name);
    ("version", JString "1.0.0");
    ("dimensions", JInt 768);
    ("max_tokens", JInt 512);
    ("format", JString "onnx");
    ("description", JString "GTR-T5-Base embedding model for vec2text compatibility");
    ("vec2text_compatible", JBool true) ].

Section WithEnv.
Context {S : Type} (env : Env S).

Fixpoint print_names (names : list string) : M (S := S) unit :=
  match names with
  | [] => ret tt
  | f :: rest => print (LFileName f) ;; print_names rest
  end.

Definition export_to_onnx (output_dir : string) : M (S := S) unit :=
  let model_name := "sentence-transformers/gtr-t5-base" in
  let output_path := PathOf output_dir in
  call (EvMkdir output_path) (mkdir env output_path) ;;
  print (LExporting model_name) ;;
  print (LOutputDirectory output_path) ;;
  print LLoadingModel ;;
  call (EvLoadAutoModel model_name) (AutoModel_from_pretrained env model_name) ;;
  call (EvLoadAutoTokenizer model_name) (AutoTokenizer_from_pretrained env model_name) ;;
  print LCreatingDummy ;;
  let dummy_text := "This is a test sentence for export." in
  inputs <- call (EvTokenize dummy_text 512) (tokenizer env dummy_text 512%Z) ;;
  print LExportingEncoder ;;
  let onnx_path := PathJoin output_path "model.onnx" in
  call (EvOnnxExport onnx_path 14) (onnx_export env inputs onnx_path 14%Z) ;;
  print LSavingTokenizer ;;
  call (EvSaveTokenizer output_path) (save_pretrained env output_path) ;;
  let md := metadata model_name in
  let md_path := PathJoin output_path "metadata.json" in
  call (EvWriteJson md_path md 2) (json_dump env md_path md 2%Z) ;;
  print LExportComplete ;;
  print (LModelSavedTo output_path) ;;
  print LFilesCreated ;;
  names <- call (EvIterdir output_path) (iterdir env output_path) ;;
  print_names names.

End WithEnv.

(** What a run has emitted when it gets to writing [metadata.json]. *)
Definition before_metadata (output_dir : string) : list event :=
  [ EvMkdir (PathOf output_dir);
    EvPrint (LExporting "sentence-transformers/gtr-t5-base");
    EvPrint (LOutputDirectory (PathOf output_dir));
    EvPrint LLoadingModel;
    EvLoadAutoModel "sentence-transformers/gtr-t5-base";
    EvLoadAutoTokenizer "sentence-transformers/gtr-t5-base";
    EvPrint LCreatingDummy;
    EvTokenize "This is a test sentence for export." 512;
    EvPrint LExportingEncoder;
    EvOnnxExport (PathJoin (PathOf output_dir) "model.onnx") 14;
    EvPrint LSavingTokenizer;
    EvSaveTokenizer (PathOf output_dir) ].

Definition file_lines (log : list event) : list string :=
  flat_map (fun e => match e with EvPrint (LFileName f) => [f] | _ => [] end) log.

(** The JSON files a run wrote. *)
Definition written (log : list event) : list (Path * list (string * json)) :=
  flat_map (fun e => match e with EvWriteJson p c _ => [(p, c)] | _ => [] end) log.

Fixpoint lookup (k : string) (d : list (string * json)) : option json :=
  match d with
  | [] => None
  | (k', v) :: rest => if String.eqb k k' then Some v else lookup k rest
  end.

Inductive jtype : Type := TString | TInt | TBool.

Definition type_of (j : json) : jtype :=
  match j with
  | JString _ => TString
  | JInt _ => TInt
  | JBool _ => TBool
  end.

(** The schema of [metadata.json], as the specification gives it. *)
Definition schema : list (string * jtype) :=
  [ ("model_name", TString);
    ("version", TString);
    ("dimensions", TInt);
    ("max_tokens", TInt);
    ("format", TString);
    ("description", TString);
    ("vec2text_compatible", TBool) ].

End Exporter.

(** ** Concrete inputs *)

Module Demo.
Local Open Scope string_scope.

Definition demo_hidden : Tensor :=
  mkTensor 2 [[of_Z 3; of_Z 4]; [of_Z 3; of_Z 4]; [of_Z 9; of_Z (-2)]].


(** One token, one dimension: [[1.0]]. *)
Definition one_hidden : Tensor := mkTensor 1 [[of_Z 1]].

(** A norm for the concrete environments: exact on the vectors whose
    squared length is the square of a rational. *)
Definition demo_norm (v : list val) : val :=
  match np_dot v v with
  | Fin q => Fin (Q2Qc (Qmake (Z.sqrt (Qnum q)) (Pos.sqrt (Qden q))))
  | x => x
  end.

Definition demo_encoded : Encoded :=
  mkEncoded [8774; 6; 1]%Z [1; 1; 0]%Z None.

Definition default_dir : string := "./gtr-t5-base-onnx".

Definition dir_is (d : string) (p : Path) : bool :=
  match p with
  | PathOf s => String.eqb s d
  | PathJoin _ _ => false
  end.

Definition tick {A : Type} (a : res A) (s : nat) : res A * nat := (a, S s).

(** Collaborators whose state counts the calls made to them.  The
    reference model embeds every sentence as [(3, 4)]; the graph returns
    [demo_hidden], which pools to [(3, 4)] under the mask [1, 1, 0]. *)
Definition good_env : Verifier.Env nat :=
  {| Verifier.path_exists := fun p _ => dir_is default_dir p;
     Verifier.SentenceTransformer := fun _ => tick (Ok tt);
     Verifier.ORT_from_pretrained := fun _ => tick (Ok tt);
     Verifier.AutoTokenizer_from_pretrained := fun _ => tick (Ok tt);
     Verifier.encode := fun _ => tick (Ok [of_Z 3; of_Z 4]);
     Verifier.tokenizer := fun _ _ => tick (Ok demo_encoded);
     Verifier.onnx_model := fun _ => tick (Ok (mkOutput demo_hidden));
     Verifier.np_norm := demo_norm |}.

(** A graph that wants [decoder_input_ids]: the first call of every
    sentence raises, the retry returns. *)
Definition needs_decoder_env : Verifier.Env nat :=
  {| Verifier.path_exists := fun p _ => dir_is default_dir p;
     Verifier.SentenceTransformer := fun _ => tick (Ok tt);
     Verifier.ORT_from_pretrained := fun _ => tick (Ok tt);
     Verifier.AutoTokenizer_from_pretrained := fun _ => tick (Ok tt);
     Verifier.encode := fun _ => tick (Ok [of_Z 3; of_Z 4]);
     Verifier.tokenizer := fun _ _ => tick (Ok demo_encoded);
     Verifier.onnx_model := fun enc =>
       match decoder_input_ids enc with
       | Some _ => tick (Ok (mkOutput demo_hidden))
       | None => tick (Raise "ValueError")
       end;
     Verifier.np_norm := demo_norm |}.

(** A graph every call of which raises. *)
Definition broken_env : Verifier.Env nat :=
  {| Verifier.path_exists := fun p _ => dir_is default_dir p;
     Verifier.SentenceTransformer := fun _ => tick (Ok tt);
     Verifier.ORT_from_pretrained := fun _ => tick (Ok tt);
     Verifier.AutoTokenizer_from_pretrained := fun _ => tick (Ok tt);
     Verifier.encode := fun _ => tick (Ok [of_Z 3; of_Z 4]);
     Verifier.tokenizer := fun _ _ => tick (Ok demo_encoded);
     Verifier.onnx_model := fun _ => tick (Raise "RuntimeError");
     Verifier.np_norm := demo_norm |}.

(** No artifact directory on disk. *)
Definition missing_env : Verifier.Env nat :=
  {| Verifier.path_exists := fun _ _ => false;
     Verifier.SentenceTransformer := fun _ => tick (Ok tt);
     Verifier.ORT_from_pretrained := fun _ => tick (Ok tt);
     Verifier.AutoTokenizer_from_pretrained := fun _ => tick (Ok tt);
     Verifier.encode := fun _ => tick (Ok [of_Z 3; of_Z 4]);
     Verifier.tokenizer := fun _ _ => tick (Ok demo_encoded);
     Verifier.onnx_model := fun _ => tick (Ok (mkOutput demo_hidden));
     Verifier.np_norm := demo_norm |}.

(** The reference model embeds the first sentence as [(4, -3)], at a right
    angle to what the graph gives, and the others as [(3, 4)]. *)
Definition mixed_env : Verifier.Env nat :=
  {| Verifier.path_exists := fun p _ => dir_is default_dir p;
     Verifier.SentenceTransformer := fun _ => tick (Ok tt);
     Verifier.ORT_from_pretrained := fun _ => tick (Ok tt);
     Verifier.AutoTokenizer_from_pretrained := fun _ => tick (Ok tt);
     Verifier.encode := fun x =>
       if String.eqb x "Hello, world!" then tick (Ok [of_Z 4; of_Z (-3)])
       else tick (Ok [of_Z 3; of_Z 4]);
     Verifier.tokenizer := fun _ _ => tick (Ok demo_encoded);
     Verifier.onnx_model := fun _ => tick (Ok (mkOutput demo_hidden));
     Verifier.np_norm := demo_norm |}.

(** The reference model cannot be loaded. *)
Definition offline_env : Verifier.Env nat :=
  {| Verifier.path_exists := fun p _ => dir_is default_dir p;
     Verifier.SentenceTransformer := fun _ => tick (Raise "OSError");
     Verifier.ORT_from_pretrained := fun _ => tick (Ok tt);
     Verifier.AutoTokenizer_from_pretrained := fun _ => tick (Ok tt);
     Verifier.encode := fun _ => tick (Ok [of_Z 3; of_Z 4]);
     Verifier.tokenizer := fun _ _ => tick (Ok demo_encoded);
     Verifier.onnx_model := fun _ => tick (Ok (mkOutput demo_hidden));
     Verifier.np_norm := demo_norm |}.

(** Two padded tokens around one real token. *)
Definition padded_hidden : Tensor :=
  mkTensor 2 [[of_Z 5; of_Z 6]; [of_Z 3; PInf]; [of_Z 9; of_Z (-2)]].

(** The graph export fails (an operator the opset lacks). *)
Definition export_fails_env : Exporter.Env nat :=
  {| Exporter.mkdir := fun _ => tick (Ok tt);
     Exporter.AutoModel_from_pretrained := fun _ => tick (Ok tt);
     Exporter.AutoTokenizer_from_pretrained := fun _ => tick (Ok tt);
     Exporter.tokenizer := fun _ _ => tick (Ok demo_encoded);
     Exporter.onnx_export := fun _ _ _ => tick (Raise "RuntimeError");
     Exporter.save_pretrained := fun _ => tick (Ok tt);
     Exporter.json_dump := fun _ _ _ => tick (Ok tt);
     Exporter.iterdir := fun _ => tick (Ok []) |}.

Definition export_env : Exporter.Env nat :=
  {| Exporter.mkdir := fun _ => tick (Ok tt);
     Exporter.AutoModel_from_pretrained := fun _ => tick (Ok tt);
     Exporter.AutoTokenizer_from_pretrained := fun _ => tick (Ok tt);
     Exporter.tokenizer := fun _ _ => tick (Ok demo_encoded);
     Exporter.onnx_export := fun _ _ _ => tick (Ok tt);
     Exporter.save_pretrained := fun _ => tick (Ok tt);
     Exporter.json_dump := fun _ _ _ => tick (Ok tt);
     Exporter.iterdir := fun _ =>
       tick (Ok ["model.onnx"; "tokenizer.json"; "metadata.json"]) |}.

End Demo.
Export Demo.


(** * Properties *)

(** ** Scalars *)

Lemma Qc_eqb_eq (a b : Qc) : Qc_eqb a b = true <-> a = b.
Proof.
  unfold Qc_eqb. rewrite Qceq_alt.
  destruct (a ?= b)%Qc; split; congruence.
Qed.

Lemma val_eqb_eq (x y : val) : val_eqb x y = true <-> x = y.
Proof.
  destruct x, y; simpl; try (split; congruence).
  rewrite Qc_eqb_eq. split; congruence.
Qed.

Lemma vadd_zero_l (x : val) : vadd vzero x = x.
Proof. destruct x; simpl; trivial. now rewrite Qcplus_0_l. Qed.

Lemma vadd_zero_r (x : val) : vadd x vzero = x.
Proof. destruct x; simpl; trivial. now rewrite Qcplus_0_r. Qed.

Lemma vmul_one_r (x : val) : vmul x vone = x.
Proof. destruct x; simpl; trivial. now rewrite Qcmult_1_r. Qed.

Lemma vmul_zero_r (x : val) : is_finite x = true -> vmul x vzero = vzero.
Proof.
  destruct x; simpl; try discriminate. intros _.
  unfold vzero. f_equal. ring.
Qed.

Lemma of_Z_0 : of_Z 0 = vzero.
Proof. reflexivity. Qed.

Lemma of_Z_1 : of_Z 1 = vone.
Proof. reflexivity. Qed.

Lemma of_Z_add (a b : Z) : vadd (of_Z a) (of_Z b) = of_Z (a + b).
Proof.
  unfold of_Z, vadd. f_equal. apply Qc_is_canon.
  unfold Qcplus, Q2Qc, this.
  rewrite !Qred_correct, inject_Z_plus. reflexivity.
Qed.

Lemma Qc_ltb_ge (a b : Qc) : (b <= a)%Qc -> Qc_ltb a b = false.
Proof.
  intros H. unfold Qc_ltb, Qccompare.
  destruct (Qcompare a b) eqn:E; trivial.
  apply Qlt_alt in E. exfalso. apply (Qle_not_lt _ _ H E).
Qed.

Lemma clamp_min_count (n : Z) : (1 <= n)%Z -> clamp_min (of_Z n) eps = of_Z n.
Proof.
  intros Hn. unfold clamp_min, of_Z, eps, vgt.
  rewrite Qc_ltb_ge; trivial.
  unfold Qcle, Q2Qc, this. rewrite !Qred_correct.
  unfold Qle. cbn [Qnum Qden inject_Z]. lia.
Qed.

Lemma clamp_min_zero : clamp_min vzero eps = eps.
Proof. reflexivity. Qed.

Lemma vdiv_zero_eps : vdiv vzero eps = vzero.
Proof. apply val_eqb_eq. reflexivity. Qed.

(** ** Lists *)

Lemma length_map2 {A B C} (f : A -> B -> C) xs ys :
  length (map2 f xs ys) = Nat.min (length xs) (length ys).
Proof.
  revert ys. induction xs as [|x xs IH]; intros [|y ys]; simpl; auto.
Qed.

Lemma map2_app {A B C} (f : A -> B -> C) xs xs' ys ys' :
  length xs = length ys ->
  map2 f (xs ++ xs') (ys ++ ys') = map2 f xs ys ++ map2 f xs' ys'.
Proof.
  revert ys. induction xs as [|x xs IH]; intros [|y ys] H; simpl in *;
    try discriminate; trivial.
  f_equal. apply IH. congruence.
Qed.

Lemma map2_repeat_r {A B C} (f : A -> B -> C) xs y :
  map2 f xs (repeat y (length xs)) = map (fun x => f x y) xs.
Proof. induction xs as [|x xs IH]; simpl; congruence. Qed.

Lemma map2_repeat {A B C} (f : A -> B -> C) x y n :
  map2 f (repeat x n) (repeat y n) = repeat (f x y) n.
Proof. induction n as [|n IH]; simpl; congruence. Qed.

Lemma map_id_ext {A} (f : A -> A) xs :
  Forall (fun x => f x = x) xs -> map f xs = xs.
Proof. induction 1; simpl; congruence. Qed.

Lemma fold_left_vadd_zeros (xs : list val) :
  Forall (fun x => x = vzero) xs -> fold_left vadd xs vzero = vzero.
Proof.
  induction 1 as [|x xs Hx _ IH]; cbn [fold_left]; trivial.
  subst x. now rewrite vadd_zero_l.
Qed.


Lemma nth_mul_zero_row (d D : nat) (v : list val) :
  Forall (fun x => is_finite x = true) v ->
  nth d (map2 vmul v (repeat vzero D)) vzero = vzero.
Proof.
  intros Hv. revert d D.
  induction Hv as [|x v Hx _ IH]; intros d D.
  - now destruct d.
  - destruct D as [|D]; [now destruct d|]. cbn [repeat map2 nth].
    destruct d as [|d]; [now apply vmul_zero_r | apply IH].
Qed.

(** ** The mean-pooling reducer *)

Lemma list_val_eqb_refl (xs : list val) : list_val_eqb xs xs = true.
Proof.
  unfold list_val_eqb. rewrite Nat.eqb_refl. simpl.
  induction xs as [|x xs IH]; simpl; trivial.
  rewrite IH, andb_true_r. now apply val_eqb_eq.
Qed.

Lemma pooled_eqb_complete (a b : option (list val)) :
  a = b -> pooled_eqb a b = true.
Proof.
  intros <-. destruct a as [xs|]; simpl; trivial. apply list_val_eqb_refl.
Qed.

Lemma expand_same (mask : list Z) (L D : nat) :
  length mask = L -> expand mask L D = Some (map (fun m => repeat m D) mask).
Proof. intros H. unfold expand. now rewrite H, Nat.eqb_refl. Qed.

Lemma sum1_length (D : nat) (x : list (list val)) : length (sum1 D x) = D.
Proof. unfold sum1. now rewrite length_map, length_seq. Qed.

Lemma sum1_const (D : nat) (x : list (list val)) (c : val) :
  (forall d, d < D -> fold_left vadd (map (fun r => nth d r vzero) x) vzero = c) ->
  sum1 D x = repeat c D.
Proof.
  intros H. unfold sum1.
  rewrite <- (length_seq D 0) at 2. rewrite <- map_const.
  apply map_ext_in. intros d Hd. apply in_seq in Hd. apply H. lia.
Qed.

Lemma mean_pooling_same_length (t : Tensor) (mask : list Z) :
  length mask = length (rows t) ->
  mean_pooling (mkOutput t) mask =
    Some (map2 vdiv
            (sum1 (ncols t)
               (map2 (map2 vmul) (rows t)
                  (map (fun m => repeat (of_Z m) (ncols t)) mask)))
            (map (fun s => clamp_min s eps)
               (sum1 (ncols t) (map (fun m => repeat (of_Z m) (ncols t)) mask)))).
Proof.
  intros H. unfold mean_pooling. cbn [last_hidden_state].
  rewrite (expand_same _ _ _ H), map_map.
  do 3 f_equal.
  - f_equal. apply map_ext. intros m. apply map_repeat.
  - f_equal. apply map_ext. intros m. apply map_repeat.
Qed.

(** C8.  Whatever the sequence length [L], pooling a tensor of shape
    [(L, D)] with a mask of length [L] returns, and what it returns is one
    vector of exactly [D] components. *)
Theorem mean_pooling_dimension (t : Tensor) (mask : list Z) :
  length mask = length (rows t) ->
  exists out, mean_pooling (mkOutput t) mask = Some out /\ length out = ncols t.
Proof.
  intros H. eexists. split; [apply (mean_pooling_same_length _ _ H)|].
  now rewrite length_map2, length_map, !sum1_length, Nat.min_id.
Qed.

Lemma mean_pooling_dimension_witness :
  exists out,
    mean_pooling (mkOutput demo_hidden) [1; 1; 0]%Z = Some out /\ length out = 2.
Proof. apply (mean_pooling_dimension demo_hidden [1; 1; 0]%Z). reflexivity. Defined.







(** C3, as amended.  With finite entries and an all-zero mask the reducer
    returns, and every component is the masked sum, which is zero, divided
    by epsilon: the finite value zero. *)
Theorem mean_pooling_all_zeros (t : Tensor) :
  all_finite t ->
  mean_pooling (mkOutput t) (repeat 0%Z (length (rows t)))
  = Some (repeat (vdiv vzero eps) (ncols t))
  /\ vdiv vzero eps = vzero
  /\ Forall (fun x => is_finite x = true) (repeat (vdiv vzero eps) (ncols t)).
Proof.
  intros Hfin. set (D := ncols t). split; [|split].
  - rewrite mean_pooling_same_length by apply repeat_length.
    fold D. rewrite map_repeat, of_Z_0. f_equal.
    rewrite (sum1_const D _ vzero), (sum1_const D (repeat _ _) vzero).
    + rewrite map_repeat, clamp_min_zero. apply map2_repeat.
    + intros d Hd. apply fold_left_vadd_zeros.
      rewrite map_repeat. apply Forall_forall. intros x Hx.
      apply repeat_spec in Hx. subst x. now apply nth_repeat_lt.
    + intros d _. apply fold_left_vadd_zeros.
      rewrite map2_repeat_r, map_map.
      apply Forall_forall. intros x Hx. apply in_map_iff in Hx.
      destruct Hx as [r [<- Hr]]. apply nth_mul_zero_row.
      unfold all_finite in Hfin. rewrite Forall_forall in Hfin. now apply Hfin.
  - exact vdiv_zero_eps.
  - rewrite vdiv_zero_eps. apply Forall_forall. intros x Hx.
    apply repeat_spec in Hx. now subst x.
Qed.

Lemma mean_pooling_all_zeros_witness :
  mean_pooling (mkOutput demo_hidden) (repeat 0%Z (length (rows demo_hidden)))
  = Some (repeat (vdiv vzero eps) (ncols demo_hidden))
  /\ vdiv vzero eps = vzero
  /\ Forall (fun x => is_finite x = true) (repeat (vdiv vzero eps) (ncols demo_hidden)).
Proof. apply (mean_pooling_all_zeros demo_hidden). repeat constructor. Defined.

(** C3, as stated, fails: one token [1.0] under mask [0] pools to [0],
    not to [1 / epsilon]. *)
Lemma mean_pooling_all_zeros_not_sum :
  all_finite one_hidden /\
  mean_pooling (mkOutput one_hidden) [0%Z] <> Some (sum_over_eps one_hidden).
Proof.
  split; [repeat constructor|].
  intros H. apply pooled_eqb_complete in H. vm_compute in H. discriminate.
Qed.

Lemma fold_left_vadd_zero_first (xs : list val) :
  fold_left vadd (vzero :: xs) vzero = fold_left vadd xs vzero.
Proof. cbn [fold_left]. now rewrite vadd_zero_l. Qed.

Lemma fold_left_vadd_zero_last (xs : list val) :
  fold_left vadd (xs ++ [vzero]) vzero = fold_left vadd xs vzero.
Proof. rewrite fold_left_app. cbn [fold_left]. apply vadd_zero_r. Qed.

(** C4, as amended.  For a hidden_states/mask pair of equal length and a
    token vector [v] with finite entries, putting the position [(v, 0)] in
    front or at the end leaves the reducer's output unchanged. *)
Theorem mean_pooling_padding (D : nat) (h : list (list val)) (mask : list Z)
    (v : list val) :
  Forall (fun x => is_finite x = true) v ->
  length mask = length h ->
  mean_pooling (mkOutput (mkTensor D (v :: h))) (0%Z :: mask)
    = mean_pooling (mkOutput (mkTensor D h)) mask
  /\ mean_pooling (mkOutput (mkTensor D (h ++ [v]))) (mask ++ [0%Z])
    = mean_pooling (mkOutput (mkTensor D h)) mask.
Proof.
  intros Hv Hlen. split.
  - rewrite !mean_pooling_same_length by (simpl; congruence).
    cbn [ncols rows map map2]. unfold sum1. do 2 f_equal.
    + apply map_ext. intros d. cbn [map]. rewrite of_Z_0, nth_mul_zero_row by exact Hv.
      apply fold_left_vadd_zero_first.
    + rewrite !map_map. apply map_ext. intros d. cbn [map].
      rewrite of_Z_0.
      replace (nth d (repeat vzero D) vzero) with vzero
        by (symmetry; apply nth_repeat).
      now rewrite fold_left_vadd_zero_first.
  - rewrite !mean_pooling_same_length
      by (cbn [rows]; rewrite ?length_app; simpl; congruence).
    cbn [ncols rows]. rewrite map_app. cbn [map].
    rewrite map2_app by (now rewrite length_map).
    unfold sum1. do 2 f_equal.
    + apply map_ext. intros d. rewrite map_app. cbn [map map2].
      rewrite of_Z_0, nth_mul_zero_row by exact Hv.
      apply fold_left_vadd_zero_last.
    + rewrite !map_map. apply map_ext. intros d. rewrite map_app. cbn [map].
      rewrite of_Z_0.
      replace (nth d (repeat vzero D) vzero) with vzero
        by (symmetry; apply nth_repeat).
      now rewrite fold_left_vadd_zero_last.
Qed.

Lemma mean_pooling_padding_witness :
  mean_pooling (mkOutput (mkTensor 2 ([of_Z 7; of_Z 8] :: rows demo_hidden)))
               (0%Z :: [1; 1; 0]%Z)
    = mean_pooling (mkOutput (mkTensor 2 (rows demo_hidden))) [1; 1; 0]%Z
  /\ mean_pooling (mkOutput (mkTensor 2 (rows demo_hidden ++ [[of_Z 7; of_Z 8]])))
                  ([1; 1; 0]%Z ++ [0%Z])
    = mean_pooling (mkOutput (mkTensor 2 (rows demo_hidden))) [1; 1; 0]%Z.
Proof.
  apply (mean_pooling_padding 2 (rows demo_hidden) [1; 1; 0]%Z [of_Z 7; of_Z 8]).
  - repeat constructor.
  - reflexivity.
Defined.

(** C4, as stated, fails when [v] is not finite: [inf * 0] is [nan], and
    the [nan] reaches the sum. *)
Lemma mean_pooling_padding_inf :
  mean_pooling (mkOutput (mkTensor 1 ([PInf] :: rows one_hidden))) (0%Z :: [1%Z])
  <> mean_pooling (mkOutput (mkTensor 1 (rows one_hidden))) [1%Z].
Proof. vm_compute. discriminate. Qed.

(** ** The verifier *)

Section VerifierFacts.
Context {S : Type} (env : Env S).

Lemma verify_missing_run (onnx_dir : string) (s : S) :
  path_exists env (PathOf onnx_dir) s = false ->
  verify_onnx_export env onnx_dir s
  = (Ok false,
     [EvPrint (LNotFound (PathOf onnx_dir)); EvPrint LRunExportFirst], s).
Proof. intros H. unfold verify_onnx_export. now rewrite H. Qed.

(** C10.  When the artifact directory does not exist the verifier returns
    [False]: it raises nothing, calls no collaborator (no model is loaded,
    no embedding computed, the collaborators' state is untouched), only
    prints two lines, and the process exits with status 1. *)
Theorem verify_missing_returns_false (s : S) (onnx_dir : string) :
  path_exists env (PathOf onnx_dir) s = false ->
  verify_onnx_export env onnx_dir s
    = (Ok false, [EvPrint (LNotFound (PathOf onnx_dir)); EvPrint LRunExportFirst], s)
  /\ (onnx_dir = "./gtr-t5-base-onnx"%string ->
      main env s
      = (1%Z, [EvPrint (LNotFound (PathOf onnx_dir)); EvPrint LRunExportFirst], s)).
Proof.
  intros H. split; [exact (verify_missing_run _ _ H)|].
  intros E. unfold main. rewrite <- E. now rewrite (verify_missing_run _ _ H).
Qed.

(** C6, as amended.  When the artifact directory does not exist the verify
    operation stops before any model is loaded or any embedding computed:
    it prints that the directory was not found and returns [False]; no
    exception is raised. *)
Theorem verify_missing_reports (s : S) (onnx_dir : string) :
  path_exists env (PathOf onnx_dir) s = false ->
  (forall e, result_of (verify_onnx_export env onnx_dir s) <> Raise e)
  /\ result_of (verify_onnx_export env onnx_dir s) = Ok false
  /\ hd_error (log_of (verify_onnx_export env onnx_dir s))
     = Some (EvPrint (LNotFound (PathOf onnx_dir)))
  /\ filter (fun e => negb (is_print e)) (log_of (verify_onnx_export env onnx_dir s)) = [].
Proof.
  intros H. rewrite (verify_missing_run _ _ H). repeat split. discriminate.
Qed.

End VerifierFacts.

Lemma verify_missing_returns_false_witness :
  verify_onnx_export missing_env default_dir 0
    = (Ok false, [EvPrint (LNotFound (PathOf default_dir)); EvPrint LRunExportFirst], 0)
  /\ (default_dir = "./gtr-t5-base-onnx"%string ->
      main missing_env 0
      = (1%Z, [EvPrint (LNotFound (PathOf default_dir)); EvPrint LRunExportFirst], 0)).
Proof. apply (verify_missing_returns_false missing_env 0 default_dir). reflexivity. Defined.

Lemma verify_missing_reports_witness :
  (forall e, result_of (verify_onnx_export missing_env default_dir 0) <> Raise e)
  /\ result_of (verify_onnx_export missing_env default_dir 0) = Ok false
  /\ hd_error (log_of (verify_onnx_export missing_env default_dir 0))
     = Some (EvPrint (LNotFound (PathOf default_dir)))
  /\ filter (fun e => negb (is_print e)) (log_of (verify_onnx_export missing_env default_dir 0)) = [].
Proof. apply (verify_missing_reports missing_env 0 default_dir). reflexivity. Defined.

(** C6, as stated, fails: on a missing directory the verify operation does
    not fail with [ArtifactNotFoundError], it returns [False]. *)
Lemma verify_missing_no_exception :
  Verifier.path_exists missing_env (PathOf default_dir) 0 = false
  /\ result_of (verify_onnx_export missing_env default_dir 0)
     <> Raise "ArtifactNotFoundError"%string.
Proof. split; [reflexivity | discriminate]. Qed.

(** ** Runs of the verifier *)

Lemma verdicts_app (l l' : list event) :
  verdicts (l ++ l') = verdicts l ++ verdicts l'.
Proof. apply flat_map_app. Qed.

Lemma cosines_app (l l' : list event) :
  cosines (l ++ l') = cosines l ++ cosines l'.
Proof. apply flat_map_app. Qed.

Lemma tested_app (l l' : list event) :
  tested (l ++ l') = tested l ++ tested l'.
Proof. apply flat_map_app. Qed.

Lemma onnx_calls_app (l l' : list event) :
  onnx_calls (l ++ l') = onnx_calls l ++ onnx_calls l'.
Proof. apply flat_map_app. Qed.

Tactic Notation "run_call" constr(op) "as" ident(a) ident(s') :=
  destruct op as [[a | ?] s']; cbn [fst snd app].

Ltac unfold_run :=
  unfold bind, call, try_except, print, ret, raise, result_of, log_of, state_of.

Section VerifierRuns.
Context {S : Type} (env : Env S).



(** The graph call prints no similarity and no verdict. *)
Lemma call_onnx_quiet (encoded : Encoded) (s : S) :
  verdicts (log_of (call_onnx env encoded s)) = []
  /\ cosines (log_of (call_onnx env encoded s)) = []
  /\ tested (log_of (call_onnx env encoded s)) = [].
Proof.
  unfold call_onnx. unfold_run.
  run_call (onnx_model env encoded s) as out s1; [now repeat split|].
  run_call (onnx_model env (set_decoder_input_ids encoded [[0%Z]]) s1) as out s2;
    now repeat split.
Qed.

Lemma compare_run (orig : list val) (out : ModelOutput) (encoded : Encoded)
    (all_match : bool) (s : S) :
  verdicts (log_of (compare env orig out encoded all_match s))
    = map passes (cosines (log_of (compare env orig out encoded all_match s)))
  /\ tested (log_of (compare env orig out encoded all_match s)) = []
  /\ match result_of (compare env orig out encoded all_match s) with
     | Ok b => exists v,
         verdicts (log_of (compare env orig out encoded all_match s)) = [v]
         /\ b = andb all_match v
     | Raise _ => verdicts (log_of (compare env orig out encoded all_match s)) = []
     end.
Proof.
  unfold compare.
  destruct (mean_pooling out (attention_mask encoded)) as [emb|];
    [|now repeat split].
  destruct (Nat.eqb (length emb) 1); [now repeat split|].
  destruct (negb (Nat.eqb (length orig) (length emb))); [now repeat split|].
  unfold_run. cbn [fst snd app].
  set (c := vdiv _ _). unfold passes.
  destruct (vgt c threshold) eqn:E; cbn [fst snd app verdicts cosines flat_map map];
    rewrite E; repeat split.
  - exists true. now rewrite andb_true_r.
  - exists false. now rewrite andb_false_r.
Qed.

Lemma probe_run (n i : nat) (sentence : string) (all_match : bool) (s : S) :
  verdicts (log_of (probe env n i sentence all_match s))
    = map passes (cosines (log_of (probe env n i sentence all_match s)))
  /\ match result_of (probe env n i sentence all_match s) with
     | Ok b => exists v,
         verdicts (log_of (probe env n i sentence all_match s)) = [v]
         /\ b = andb all_match v
     | Raise _ => verdicts (log_of (probe env n i sentence all_match s)) = []
     end.
Proof.
  unfold probe. unfold_run.
  run_call (encode env sentence s) as orig s1; [|now split].
  run_call (tokenizer env sentence 512%Z s1) as enc s2; [|now split].
  destruct (call_onnx_quiet enc s2) as (Hv & Hc & _).
  destruct (call_onnx env enc s2) as [[[[out enc'] | ex] l] s3];
    unfold log_of in Hv, Hc; cbn [fst snd] in *.
  - destruct (compare_run orig out enc' all_match s3) as (Hv' & _ & Hr).
    destruct (compare env orig out enc' all_match s3) as [[r l'] s4].
    unfold log_of, result_of in *. cbn [fst snd] in *.
    change (verdicts (?a :: ?b :: ?c :: ?l)) with (verdicts l).
    change (cosines (?a :: ?b :: ?c :: ?l)) with (cosines l).
    rewrite verdicts_app, cosines_app, Hv, Hc. cbn [app]. now split.
  - change (verdicts (?a :: ?b :: ?c :: ?l)) with (verdicts l).
    change (cosines (?a :: ?b :: ?c :: ?l)) with (cosines l).
    rewrite Hv, Hc. now split.
Qed.

Lemma for_each_run (n : nat) (items : list (nat * string)) (all_match : bool) (s : S) :
  verdicts (log_of (for_each env n items all_match s))
    = map passes (cosines (log_of (for_each env n items all_match s)))
  /\ match result_of (for_each env n items all_match s) with
     | Ok b =>
         length (verdicts (log_of (for_each env n items all_match s))) = length items
         /\ b = andb all_match
                  (forallb id (verdicts (log_of (for_each env n items all_match s))))
     | Raise _ =>
         length (verdicts (log_of (for_each env n items all_match s))) < length items
     end.
Proof.
  revert all_match s.
  induction items as [|[i sentence] rest IH]; intros all_match s.
  - cbn. split; trivial. split; trivial. now rewrite andb_true_r.
  - cbn [for_each]. unfold bind.
    destruct (probe_run n i sentence all_match s) as (Hv & Hr).
    destruct (probe env n i sentence all_match s) as [[[b | e] l] s1];
      unfold log_of, result_of in *; cbn [fst snd length] in *.
    + destruct Hr as (v & Hl & ->).
      destruct (IH (all_match && v)%bool s1) as (Hv' & Hr').
      destruct (for_each env n rest (all_match && v)%bool s1) as [[r l'] s2].
      cbn [fst snd] in *. rewrite verdicts_app, cosines_app, map_app.
      split; [congruence|].
      destruct r as [b | e].
      * destruct Hr' as (Hlen & ->). rewrite Hl. cbn [app length forallb id].
        split; [congruence|]. unfold id at 1. now rewrite andb_assoc.
      * rewrite Hl. cbn [app length]. lia.
    + split; trivial. rewrite Hr. cbn. lia.
Qed.

End VerifierRuns.

Section VerifierClaims.
Context {S : Type} (env : Env S).



Lemma compare_no_calls (orig : list val) (out : ModelOutput) (encoded : Encoded)
    (all_match : bool) (s : S) :
  onnx_calls (log_of (compare env orig out encoded all_match s)) = [].
Proof.
  unfold compare.
  destruct (mean_pooling out (attention_mask encoded)) as [emb|]; trivial.
  destruct (Nat.eqb (length emb) 1); trivial.
  destruct (negb (Nat.eqb (length orig) (length emb))); trivial.
  unfold_run. cbn [fst snd app].
  now destruct (vgt _ threshold).
Qed.

(** C5, as amended.  When the first graph call of a probe sentence raises,
    the verifier calls the graph exactly once more, with
    [decoder_input_ids = [[0]]] added to the same input.  When that second
    call raises too, its exception leaves the loop body: no verdict is
    printed for the sentence and the loop ends there with the exception,
    whatever sentences remain. *)
Theorem retry_once_then_propagate (n i : nat) (sentence : string)
    (all_match : bool) (s s1 s2 s3 : S) (orig : list val) (enc : Encoded)
    (e1 : exn) :
  encode env sentence s = (Ok orig, s1) ->
  tokenizer env sentence 512%Z s1 = (Ok enc, s2) ->
  onnx_model env enc s2 = (Raise e1, s3) ->
  onnx_calls (log_of (probe env n i sentence all_match s))
    = [enc; set_decoder_input_ids enc [[0%Z]]]
  /\ forall (e2 : exn) (s4 : S),
       onnx_model env (set_decoder_input_ids enc [[0%Z]]) s3 = (Raise e2, s4) ->
       result_of (probe env n i sentence all_match s) = Raise e2
       /\ verdicts (log_of (probe env n i sentence all_match s)) = []
       /\ forall rest,
            for_each env n ((i, sentence) :: rest) all_match s
            = (Raise e2, log_of (probe env n i sentence all_match s), s4).
Proof.
  intros He Ht Ho.
  assert (Hprobe : probe env n i sentence all_match s
            = match onnx_model env (set_decoder_input_ids enc [[0%Z]]) s3 with
              | (Ok out, s4) =>
                  match compare env orig out (set_decoder_input_ids enc [[0%Z]])
                          all_match s4 with
                  | (r, l, s5) =>
                      (r, [EvPrint (LTesting i n sentence); EvEncode sentence;
                           EvTokenize sentence 512; EvOnnxCall enc;
                           EvPrint (LOnnxError e1); EvPrint LTryingEncoderOnly;
                           EvOnnxCall (set_decoder_input_ids enc [[0%Z]])] ++ l, s5)
                  end
              | (Raise e2, s4) =>
                  (Raise e2, [EvPrint (LTesting i n sentence); EvEncode sentence;
                              EvTokenize sentence 512; EvOnnxCall enc;
                              EvPrint (LOnnxError e1); EvPrint LTryingEncoderOnly;
                              EvOnnxCall (set_decoder_input_ids enc [[0%Z]])], s4)
              end).
  { unfold probe, call_onnx. unfold_run. rewrite He, Ht, Ho.
    destruct (onnx_model env (set_decoder_input_ids enc [[0%Z]]) s3) as [[out | e2] s4];
      cbn [fst snd app]; trivial.
    now destruct (compare env orig out (set_decoder_input_ids enc [[0%Z]]) all_match s4)
      as [[r l] s5]. }
  split.
  - rewrite Hprobe.
    destruct (onnx_model env (set_decoder_input_ids enc [[0%Z]]) s3) as [[out | e2] s4];
      trivial.
    pose proof (compare_no_calls orig out (set_decoder_input_ids enc [[0%Z]]) all_match s4)
      as Hc.
    destruct (compare env orig out (set_decoder_input_ids enc [[0%Z]]) all_match s4)
      as [[r l] s5].
    unfold log_of in *. cbn [fst snd] in *. rewrite onnx_calls_app, Hc. reflexivity.
  - intros e2 s4 Ho2. rewrite Ho2 in Hprobe.
    repeat split; try now rewrite Hprobe.
    intros rest. cbn [for_each]. unfold bind. now rewrite Hprobe.
Qed.

End VerifierClaims.

Lemma retry_once_then_propagate_witness :
  onnx_calls (log_of (probe broken_env 4 1 "Hello, world!"%string true 3))
    = [demo_encoded; set_decoder_input_ids demo_encoded [[0%Z]]]
  /\ forall (e2 : exn) (s4 : nat),
       Verifier.onnx_model broken_env (set_decoder_input_ids demo_encoded [[0%Z]]) 6
         = (Raise e2, s4) ->
       result_of (probe broken_env 4 1 "Hello, world!"%string true 3) = Raise e2
       /\ verdicts (log_of (probe broken_env 4 1 "Hello, world!"%string true 3)) = []
       /\ forall rest,
            for_each broken_env 4 ((1, "Hello, world!"%string) :: rest) true 3
            = (Raise e2, log_of (probe broken_env 4 1 "Hello, world!"%string true 3), s4).
Proof.
  apply (retry_once_then_propagate broken_env 4 1 "Hello, world!"%string true
           3 4 5 6 [of_Z 3; of_Z 4] demo_encoded "RuntimeError"%string);
    reflexivity.
Defined.

(** C5, as stated, fails: with a graph that raises on every call the run
    ends in the exception of the first retry; no FAIL verdict is printed
    and the other three sentences are never probed. *)
Lemma retry_failure_aborts_run :
  result_of (verify_onnx_export broken_env default_dir 0) = Raise "RuntimeError"%string
  /\ verdicts (log_of (verify_onnx_export broken_env default_dir 0)) = []
  /\ tested (log_of (verify_onnx_export broken_env default_dir 0)) = ["Hello, world!"%string]
  /\ ~ (In false (verdicts (log_of (verify_onnx_export broken_env default_dir 0)))
        /\ tested (log_of (verify_onnx_export broken_env default_dir 0)) = test_sentences).
Proof.
  repeat split; try reflexivity. intros [H _]. exact H.
Qed.

(** ** Determinism *)

Section Stateless.
Context {S : Type}.

Lemma stateless_ret {A} (a : A) : stateless (S := S) (ret a).
Proof. intros s1 s2. reflexivity. Qed.

Lemma stateless_raise {A} (e : exn) : stateless (S := S) (raise (A := A) e).
Proof. intros s1 s2. reflexivity. Qed.

Lemma stateless_print (l : line) : stateless (S := S) (print l).
Proof. intros s1 s2. reflexivity. Qed.

Lemma stateless_call {A} (ev : event) (op : S -> res A * S) :
  (forall s1 s2, fst (op s1) = fst (op s2)) -> stateless (call ev op).
Proof.
  intros H s1 s2. unfold call. specialize (H s1 s2).
  destruct (op s1), (op s2). cbn in *. congruence.
Qed.

Lemma stateless_bind {A B} (m : M (S := S) A) (f : A -> M (S := S) B) :
  stateless m -> (forall a, stateless (f a)) -> stateless (bind m f).
Proof.
  intros Hm Hf s1 s2. unfold bind. specialize (Hm s1 s2).
  destruct (m s1) as [[r1 l1] t1], (m s2) as [[r2 l2] t2]. cbn in Hm.
  injection Hm as -> ->. destruct r2 as [a | e]; trivial.
  specialize (Hf a t1 t2).
  destruct (f a t1) as [[r1 l1] u1], (f a t2) as [[r2' l2'] u2]. cbn in *.
  congruence.
Qed.

Lemma stateless_try_except {A} (m : M (S := S) A) (h : exn -> M (S := S) A) :
  stateless m -> (forall e, stateless (h e)) -> stateless (try_except m h).
Proof.
  intros Hm Hh s1 s2. unfold try_except. specialize (Hm s1 s2).
  destruct (m s1) as [[r1 l1] t1], (m s2) as [[r2 l2] t2]. cbn in Hm.
  injection Hm as -> ->. destruct r2 as [a | e]; trivial.
  specialize (Hh e t1 t2).
  destruct (h e t1) as [[r1 l1] u1], (h e t2) as [[r2' l2'] u2]. cbn in *.
  congruence.
Qed.

End Stateless.

Create HintDb stateless.
#[local] Hint Resolve stateless_ret stateless_raise stateless_print : stateless.

Section Determinism.
Context {S : Type} (env : Env S).
Hypothesis Hdet : deterministic_passes env.

Lemma stateless_call_onnx (encoded : Encoded) : stateless (call_onnx env encoded).
Proof.
  destruct Hdet as (_ & _ & Ho). unfold call_onnx.
  apply stateless_try_except.
  - apply stateless_bind; [apply stateless_call, Ho | auto with stateless].
  - intros e. repeat (apply stateless_bind; [solve [auto with stateless] | intros ?]).
    apply stateless_bind; [apply stateless_call, Ho | auto with stateless].
Qed.

Lemma stateless_compare (orig : list val) (out : ModelOutput) (encoded : Encoded)
    (all_match : bool) :
  stateless (compare env orig out encoded all_match).
Proof.
  unfold compare.
  destruct (mean_pooling out (attention_mask encoded)) as [emb|];
    [|auto with stateless].
  destruct (Nat.eqb (length emb) 1).
  { apply stateless_bind; auto with stateless. }
  destruct (negb (Nat.eqb (length orig) (length emb))); [auto with stateless|].
  repeat (apply stateless_bind; [solve [auto with stateless] | intros ?]).
  destruct (vgt _ threshold); apply stateless_bind; auto with stateless.
Qed.

Lemma stateless_probe (n i : nat) (sentence : string) (all_match : bool) :
  stateless (probe env n i sentence all_match).
Proof.
  destruct Hdet as (He & Ht & _). unfold probe.
  apply stateless_bind; [auto with stateless | intros _].
  apply stateless_bind; [apply stateless_call, He | intros orig].
  apply stateless_bind; [apply stateless_call, Ht | intros enc].
  apply stateless_bind; [apply stateless_call_onnx | intros out].
  apply stateless_compare.
Qed.

Lemma stateless_for_each (n : nat) (items : list (nat * string)) (all_match : bool) :
  stateless (for_each env n items all_match).
Proof.
  revert all_match. induction items as [|[i sentence] rest IH]; intros all_match.
  - apply stateless_ret.
  - cbn [for_each]. apply stateless_bind; [apply stateless_probe | intros b; apply IH].
Qed.

Lemma stateless_probe_all (onnx_dir : string) : stateless (probe_all env (PathOf onnx_dir)).
Proof.
  unfold probe_all.
  apply stateless_bind; [apply stateless_for_each | intros b].
  apply stateless_bind; [auto with stateless | intros _].
  destruct b; repeat (apply stateless_bind; [solve [auto with stateless] | intros ?]);
    auto with stateless.
Qed.

(** A run that announces the probes has found the directory and loaded
    both models; the rest of it is the loop and the summary. *)
Lemma verify_reaches_loop (onnx_dir : string) (s : S) :
  In (EvPrint LTestingEmbeddings) (log_of (verify_onnx_export env onnx_dir s)) ->
  exists s',
    fst (verify_onnx_export env onnx_dir s)
    = (result_of (probe_all env (PathOf onnx_dir) s'),
       preamble onnx_dir ++ log_of (probe_all env (PathOf onnx_dir) s')).
Proof.
  unfold verify_onnx_export.
  destruct (path_exists env (PathOf onnx_dir) s).
  2:{ cbn. intros [H | [H | []]]; discriminate. }
  cbn [negb]. unfold bind, call, print, log_of, result_of.
  run_call (SentenceTransformer env "sentence-transformers/gtr-t5-base" s) as u s1.
  2:{ intros [H | [H | []]]; discriminate. }
  run_call (ORT_from_pretrained env (PathOf onnx_dir) s1) as u' s2.
  2:{ intros [H | [H | [H | [H | []]]]]; discriminate. }
  run_call (AutoTokenizer_from_pretrained env (PathOf onnx_dir) s2) as u'' s3.
  2:{ intros [H | [H | [H | [H | [H | []]]]]]; discriminate. }
  intros _. exists s3.
  now destruct (probe_all env (PathOf onnx_dir) s3) as [[r l] s4].
Qed.

(** C9.  With deterministic forward passes, two runs of the verifier on the
    same artifact directory that both get to the probes, started in
    whatever states of the collaborators (in particular one after the
    other), print identical cosine similarities and verdicts and return
    the same result. *)
Theorem verify_deterministic (onnx_dir : string) (s1 s2 : S) :
  In (EvPrint LTestingEmbeddings) (log_of (verify_onnx_export env onnx_dir s1)) ->
  In (EvPrint LTestingEmbeddings) (log_of (verify_onnx_export env onnx_dir s2)) ->
  cosines (log_of (verify_onnx_export env onnx_dir s1))
    = cosines (log_of (verify_onnx_export env onnx_dir s2))
  /\ verdicts (log_of (verify_onnx_export env onnx_dir s1))
    = verdicts (log_of (verify_onnx_export env onnx_dir s2))
  /\ result_of (verify_onnx_export env onnx_dir s1)
    = result_of (verify_onnx_export env onnx_dir s2).
Proof.
  intros H1 H2.
  destruct (verify_reaches_loop onnx_dir s1 H1) as [t1 E1].
  destruct (verify_reaches_loop onnx_dir s2 H2) as [t2 E2].
  assert (E : fst (verify_onnx_export env onnx_dir s1)
              = fst (verify_onnx_export env onnx_dir s2)).
  { rewrite E1, E2. unfold result_of, log_of.
    now rewrite (stateless_probe_all onnx_dir t1 t2). }
  unfold log_of, result_of. now rewrite E.
Qed.

End Determinism.

Lemma good_env_deterministic : deterministic_passes good_env.
Proof. repeat split. Qed.

Lemma verify_deterministic_witness :
  cosines (log_of (verify_onnx_export good_env default_dir 0))
    = cosines (log_of (verify_onnx_export good_env default_dir
                         (state_of (verify_onnx_export good_env default_dir 0))))
  /\ verdicts (log_of (verify_onnx_export good_env default_dir 0))
    = verdicts (log_of (verify_onnx_export good_env default_dir
                          (state_of (verify_onnx_export good_env default_dir 0))))
  /\ result_of (verify_onnx_export good_env default_dir 0)
    = result_of (verify_onnx_export good_env default_dir
                   (state_of (verify_onnx_export good_env default_dir 0))).
Proof.
  apply (verify_deterministic good_env good_env_deterministic default_dir
           0 (state_of (verify_onnx_export good_env default_dir 0)));
    vm_compute; tauto.
Defined.

(** ** The exporter *)

Section ExporterFacts.
Context {S : Type} (env : Exporter.Env S).

Lemma print_names_run (names : list string) (s : S) :
  Exporter.print_names names s
  = (Ok tt, map (fun f => EvPrint (LFileName f)) names, s).
Proof.
  induction names as [|f rest IH]; trivial.
  cbn [Exporter.print_names map]. unfold bind, print. now rewrite IH.
Qed.

Lemma written_file_names (names : list string) :
  Exporter.written (map (fun f => EvPrint (LFileName f)) names) = [].
Proof. induction names as [|f rest IH]; trivial. Qed.

(** C7.  A run of the exporter that returns has written exactly one JSON
    file, [metadata.json] in the output directory, and the object written
    has exactly the seven keys of the schema, each with a value of the
    schema's type, with [dimensions = 768] and [max_tokens = 512]. *)
Theorem export_writes_metadata (output_dir : string) (s : S) :
  result_of (Exporter.export_to_onnx env output_dir s) = Ok tt ->
  exists md,
    Exporter.written (log_of (Exporter.export_to_onnx env output_dir s))
      = [(PathJoin (PathOf output_dir) "metadata.json", md)]
    /\ map (fun kv => (fst kv, Exporter.type_of (snd kv))) md = Exporter.schema
    /\ NoDup (map fst md)
    /\ Exporter.lookup "dimensions" md = Some (JInt 768)
    /\ Exporter.lookup "max_tokens" md = Some (JInt 512).
Proof.
  unfold Exporter.export_to_onnx, bind, call, print, result_of, log_of.
  run_call (Exporter.mkdir env (PathOf output_dir) s) as u1 s1; [|discriminate].
  run_call (Exporter.AutoModel_from_pretrained env "sentence-transformers/gtr-t5-base" s1)
    as u2 s2; [|discriminate].
  run_call (Exporter.AutoTokenizer_from_pretrained env "sentence-transformers/gtr-t5-base" s2)
    as u3 s3; [|discriminate].
  run_call (Exporter.tokenizer env "This is a test sentence for export." 512%Z s3)
    as inputs s4; [|discriminate].
  run_call (Exporter.onnx_export env inputs (PathJoin (PathOf output_dir) "model.onnx") 14%Z s4)
    as u5 s5; [|discriminate].
  run_call (Exporter.save_pretrained env (PathOf output_dir) s5) as u6 s6; [|discriminate].
  run_call (Exporter.json_dump env (PathJoin (PathOf output_dir) "metadata.json")
              (Exporter.metadata "sentence-transformers/gtr-t5-base") 2%Z s6)
    as u7 s7; [|discriminate].
  run_call (Exporter.iterdir env (PathOf output_dir) s7) as names s8; [|discriminate].
  intros _. rewrite print_names_run. cbn [fst snd].
  exists (Exporter.metadata "sentence-transformers/gtr-t5-base").
  split; [|split; [|split; [|split]]]; try reflexivity.
  - cbn [Exporter.written flat_map app]. now rewrite written_file_names.
  - cbn. repeat constructor; cbn; intuition discriminate.
Qed.

End ExporterFacts.

Lemma export_writes_metadata_witness :
  exists md,
    Exporter.written (log_of (Exporter.export_to_onnx export_env default_dir 0))
      = [(PathJoin (PathOf default_dir) "metadata.json", md)]
    /\ map (fun kv => (fst kv, Exporter.type_of (snd kv))) md = Exporter.schema
    /\ NoDup (map fst md)
    /\ Exporter.lookup "dimensions" md = Some (JInt 768)
    /\ Exporter.lookup "max_tokens" md = Some (JInt 512).
Proof. apply (export_writes_metadata export_env default_dir 0). reflexivity. Defined.

(** ** Sample runs *)

Example good_run_passes :
  result_of (verify_onnx_export good_env default_dir 0) = Ok true
  /\ verdicts (log_of (verify_onnx_export good_env default_dir 0))
     = [true; true; true; true]
  /\ fst (fst (main good_env 0)) = 0%Z.
Proof. repeat split. Qed.

Example retry_recovers :
  result_of (verify_onnx_export needs_decoder_env default_dir 0) = Ok true
  /\ length (onnx_calls (log_of (verify_onnx_export needs_decoder_env default_dir 0))) = 8.
Proof. repeat split. Qed.

Example broken_run_exits_1 : fst (fst (main broken_env 0)) = 1%Z.
Proof. reflexivity. Qed.

Example pooling_masks_padding :
  pooled_eqb (mean_pooling (mkOutput demo_hidden) [1; 1; 0]%Z)
             (Some [of_Z 3; of_Z 4]) = true.
Proof. reflexivity. Qed.

Example pooling_shape_mismatch :
  mean_pooling (mkOutput demo_hidden) [1; 1]%Z = None.
Proof. reflexivity. Qed.

(** * Further properties *)

(** ** More on the mean-pooling reducer *)

Lemma vdiv_one_r (x : val) : vdiv x vone = x.
Proof.
  destruct x; trivial. unfold vdiv, vone.
  replace (Qc_eqb 1 0) with false by reflexivity.
  f_equal. apply Qc_is_canon. unfold Qcdiv, Qcmult, Qcinv, Q2Qc, this.
  rewrite !Qred_correct. destruct q as [[n p] Hq]. cbn [Qcanon.this].
  unfold Qeq, Qmult, Qinv. cbn. lia.
Qed.

Lemma of_Z_sum (ms : list Z) (k : Z) :
  fold_left vadd (map of_Z ms) (of_Z k) = of_Z (fold_left Z.add ms k).
Proof.
  revert k. induction ms as [|m ms IH]; intros k; trivial.
  cbn [map fold_left]. now rewrite of_Z_add, IH.
Qed.

Lemma mask_column (D d : nat) (mask : list Z) :
  d < D ->
  map (fun r => nth d r vzero) (map (fun m => repeat (of_Z m) D) mask) = map of_Z mask.
Proof.
  intros Hd. rewrite map_map. apply map_ext. intros m. now apply nth_repeat_lt.
Qed.

Lemma mask_sums (D : nat) (mask : list Z) :
  sum1 D (map (fun m => repeat (of_Z m) D) mask)
  = repeat (of_Z (fold_left Z.add mask 0%Z)) D.
Proof.
  apply sum1_const. intros d Hd.
  now rewrite mask_column, <- of_Z_0, of_Z_sum.
Qed.

Lemma map2_mul_ones (D : nat) (r : list val) :
  length r = D -> map2 vmul r (repeat vone D) = r.
Proof.
  intros <-. rewrite map2_repeat_r. apply map_id_ext.
  apply Forall_forall. intros x _. apply vmul_one_r.
Qed.

Lemma binary_mask_count (h : list (list val)) (mask : list Z) (k : Z) :
  length mask = length h -> binary_mask mask ->
  fold_left Z.add mask k = (k + Z.of_nat (length (unmasked h mask)))%Z.
Proof.
  intros Hlen Hbin. revert h k Hlen.
  induction Hbin as [|m mask Hm _ IH]; intros [|r h] k Hlen; try discriminate.
  - cbn. lia.
  - cbn [fold_left]. rewrite (IH h) by (simpl in Hlen; congruence).
    unfold unmasked. cbn [combine filter snd].
    destruct Hm as [-> | ->]; cbn -[Z.of_nat Z.add]; lia.
Qed.

(** Column by column, the masked sum is the sum over the rows kept. *)
Lemma masked_column (D d : nat) (h : list (list val)) (mask : list Z) (acc : val) :
  Forall (fun r => length r = D) h ->
  length mask = length h -> binary_mask mask -> padding_finite h mask ->
  fold_left vadd
    (map (fun r => nth d r vzero)
         (map2 (map2 vmul) h (map (fun m => repeat (of_Z m) D) mask))) acc
  = fold_left vadd (map (fun r => nth d r vzero) (unmasked h mask)) acc.
Proof.
  intros Hwf. revert mask acc.
  induction Hwf as [|r h Hr _ IH]; intros [|m mask] acc Hlen Hbin Hpad;
    try discriminate; trivial.
  inversion Hbin as [|? ? Hm Hbin']; subst.
  unfold padding_finite in Hpad. cbn [combine] in Hpad.
  inversion Hpad as [|? ? Hp Hpad']; subst.
  cbn [map map2 fold_left]. unfold unmasked. cbn [combine filter snd].
  destruct Hm as [-> | ->];
    [change (0 =? 1)%Z with false | change (1 =? 1)%Z with true];
    cbn [map fst fold_left].
  - rewrite of_Z_0, nth_mul_zero_row, vadd_zero_r by (now apply Hp).
    apply IH; trivial. simpl in Hlen. congruence.
  - rewrite of_Z_1, map2_mul_ones by trivial.
    apply IH; trivial. simpl in Hlen. congruence.
Qed.

Lemma unmasked_wf (D : nat) (h : list (list val)) (mask : list Z) :
  Forall (fun r => length r = D) h -> Forall (fun r => length r = D) (unmasked h mask).
Proof.
  intros Hwf. apply Forall_forall. intros r Hr. unfold unmasked in Hr.
  apply in_map_iff in Hr. destruct Hr as [[r' m] [<- Hin]].
  apply filter_In in Hin. destruct Hin as [Hin _]. apply in_combine_l in Hin.
  rewrite Forall_forall in Hwf. now apply Hwf.
Qed.

(** Under a 0/1 mask that keeps at least one token, the reducer divides the
    sums over the kept rows by their number. *)
Lemma mean_pooling_masked (D : nat) (h : list (list val)) (mask : list Z) :
  Forall (fun r => length r = D) h ->
  length mask = length h -> binary_mask mask -> padding_finite h mask ->
  unmasked h mask <> [] ->
  mean_pooling (mkOutput (mkTensor D h)) mask
  = Some (map (fun s => vdiv s (of_Z (Z.of_nat (length (unmasked h mask)))))
              (sum1 D (unmasked h mask))).
Proof.
  intros Hwf Hlen Hbin Hpad Hne.
  rewrite mean_pooling_same_length by exact Hlen. cbn [ncols rows]. f_equal.
  rewrite mask_sums, (binary_mask_count h) by trivial.
  rewrite Z.add_0_l, map_repeat, clamp_min_count
    by (destruct (unmasked h mask); [congruence | simpl; lia]).
  assert (Hnum : sum1 D (map2 (map2 vmul) h (map (fun m => repeat (of_Z m) D) mask))
                 = sum1 D (unmasked h mask)).
  { unfold sum1. apply map_ext. intros d. now apply masked_column. }
  rewrite Hnum. rewrite <- (sum1_length D (unmasked h mask)) at 2.
  apply map2_repeat_r.
Qed.



(** X2.  When the mask keeps exactly one token, the output is that token's
    vector, whatever its entries (infinities and nan included). *)
Theorem mean_pooling_single_token (D : nat) (h : list (list val)) (mask : list Z)
    (r : list val) :
  wf_tensor (mkTensor D h) ->
  length mask = length h -> binary_mask mask -> padding_finite h mask ->
  unmasked h mask = [r] ->
  mean_pooling (mkOutput (mkTensor D h)) mask = Some r.
Proof.
  intros Hwf Hlen Hbin Hpad Hone. unfold wf_tensor in Hwf. cbn [ncols rows] in Hwf.
  rewrite mean_pooling_masked by (trivial; now rewrite Hone).
  pose proof (unmasked_wf D h mask Hwf) as Hr. rewrite Hone in *.
  inversion Hr as [|? ? Hlr _]; subst. f_equal.
  cbn [length Z.of_nat]. change (of_Z (Z.pos 1)) with vone.
  apply (nth_ext _ _ vzero vzero).
  - now rewrite length_map, sum1_length.
  - intros d Hd. rewrite length_map, sum1_length in Hd.
    rewrite (nth_indep _ vzero (vdiv vzero vone)) by now rewrite length_map, sum1_length.
    rewrite (map_nth (fun s => vdiv s vone)), vdiv_one_r. unfold sum1.
    rewrite (nth_indep _ vzero (fold_left vadd (map (fun r0 => nth 0 r0 vzero) [r]) vzero))
      by now rewrite length_map, length_seq.
    rewrite (map_nth (fun d => fold_left vadd (map (fun r0 => nth d r0 vzero) [r]) vzero)).
    rewrite seq_nth by trivial. cbn [map fold_left Nat.add]. apply vadd_zero_l.
Qed.

Lemma mean_pooling_single_token_witness :
  mean_pooling (mkOutput (mkTensor 2 (rows padded_hidden))) [0; 1; 0]%Z
  = Some [of_Z 3; PInf].
Proof.
  apply (mean_pooling_single_token 2 (rows padded_hidden) [0; 1; 0]%Z [of_Z 3; PInf]).
  - unfold wf_tensor. cbn. repeat constructor.
  - reflexivity.
  - unfold binary_mask. repeat (apply Forall_cons; [auto|]). apply Forall_nil.
  - unfold padding_finite. cbn.
    repeat constructor; cbn; intros; try discriminate; repeat constructor.
  - reflexivity.
Defined.













(** X4.  The reducer raises exactly when the mask is neither as long as the
    sequence nor of length one; a mask of length one is broadcast over the
    sequence. *)
Theorem mean_pooling_shape_error (t : Tensor) (mask : list Z) :
  (mean_pooling (mkOutput t) mask = None
   <-> length mask <> length (rows t) /\ length mask <> 1)
  /\ (forall m, mean_pooling (mkOutput t) [m]
                = mean_pooling (mkOutput t) (repeat m (length (rows t)))).
Proof.
  split.
  - unfold mean_pooling, expand. cbn [last_hidden_state].
    destruct (Nat.eqb_spec (length mask) (length (rows t))) as [E | E].
    + split; [discriminate | intros [H _]; contradiction].
    + destruct mask as [|m [|m' mask]]; cbn [length] in *.
      * split; trivial. intros _. split; [exact E | discriminate].
      * split; [discriminate | intros [_ H]; contradiction].
      * split; trivial. intros _. split; [exact E | discriminate].
  - intros m. rewrite (mean_pooling_same_length t (repeat m _)) by apply repeat_length.
    unfold mean_pooling, expand. cbn [last_hidden_state length].
    destruct (Nat.eqb_spec 1 (length (rows t))) as [E | E].
    + rewrite <- E. cbn [repeat map]. now rewrite map_repeat.
    + rewrite !map_repeat. reflexivity.
Qed.

(** ** More on the verifier *)

Lemma mean_pooling_zero_mask (t : Tensor) :
  all_finite t ->
  mean_pooling (mkOutput t) (repeat 0%Z (length (rows t)))
  = Some (repeat vzero (ncols t)).
Proof.
  intros Hfin. rewrite mean_pooling_same_length by apply repeat_length.
  rewrite mask_sums, !map_repeat. f_equal.
  replace (fold_left Z.add (repeat 0%Z (length (rows t))) 0%Z) with 0%Z
    by (induction (length (rows t)); trivial).
  rewrite of_Z_0, clamp_min_zero, (sum1_const _ _ vzero).
  - rewrite map2_repeat. now rewrite vdiv_zero_eps.
  - intros d _. apply fold_left_vadd_zeros.
    rewrite map2_repeat_r, map_map.
    apply Forall_forall. intros x Hx. apply in_map_iff in Hx.
    destruct Hx as [r [<- Hr]]. apply nth_mul_zero_row.
    unfold all_finite in Hfin. rewrite Forall_forall in Hfin. now apply Hfin.
Qed.

Lemma vmul_zero_or_nan (x : val) : zero_or_nan (vmul x vzero).
Proof.
  unfold zero_or_nan, vzero.
  destruct x; [left | right | right | right]; trivial.
  unfold vmul. f_equal. ring.
Qed.

Lemma vadd_zero_or_nan (x y : val) :
  zero_or_nan x -> zero_or_nan y -> zero_or_nan (vadd x y).
Proof.
  intros [-> | ->] [-> | ->]; [left | right | right | right]; trivial.
Qed.

Lemma fold_zero_products (a : list val) (D : nat) (acc : val) :
  zero_or_nan acc ->
  zero_or_nan (fold_left vadd (map2 vmul a (repeat vzero D)) acc).
Proof.
  revert D acc.
  induction a as [|x a IH]; intros [|D] acc Hacc; cbn [repeat map2 fold_left]; trivial.
  apply IH. apply vadd_zero_or_nan; trivial. apply vmul_zero_or_nan.
Qed.

Lemma np_dot_zeros (a : list val) (D : nat) : zero_or_nan (np_dot a (repeat vzero D)).
Proof. apply fold_zero_products. now left. Qed.

Lemma vdiv_zero_or_nan (x y : val) : zero_or_nan x -> zero_or_nan (vdiv x y).
Proof.
  intros [-> | ->]; [|right; now destruct y].
  destruct y as [b | | |]; [| now left | now left | now right].
  unfold zero_or_nan, vdiv, vzero. destruct (Qc_eqb b 0); [now right | left].
  f_equal. unfold Qcdiv. ring.
Qed.

Lemma zero_or_nan_fails (x : val) : zero_or_nan x -> passes x = false.
Proof. intros [-> | ->]; reflexivity. Qed.

Section VerifierMore.
Context {S : Type} (env : Env S).

(** X5.  A sentence whose attention mask is all zeros can never pass: with
    finite hidden states its pooled embedding is the zero vector, the
    cosine similarity is 0 or nan, and the comparison prints FAIL and
    returns [False], unless it raises. *)
Theorem all_padding_never_passes (orig : list val) (out : ModelOutput)
    (encoded : Encoded) (all_match : bool) (s : S) :
  all_finite (last_hidden_state out) ->
  attention_mask encoded = repeat 0%Z (length (rows (last_hidden_state out))) ->
  match result_of (compare env orig out encoded all_match s) with
  | Ok b =>
      b = false
      /\ verdicts (log_of (compare env orig out encoded all_match s)) = [false]
  | Raise _ => verdicts (log_of (compare env orig out encoded all_match s)) = []
  end.
Proof.
  intros Hfin Hmask. unfold compare. destruct out as [t]. cbn [last_hidden_state] in *.
  rewrite Hmask, (mean_pooling_zero_mask t Hfin).
  destruct (Nat.eqb (length (repeat vzero (ncols t))) 1); [reflexivity|].
  destruct (negb (Nat.eqb (length orig) (length (repeat vzero (ncols t)))));
    [reflexivity|].
  assert (Hc : vgt (vdiv (np_dot orig (repeat vzero (ncols t)))
                      (vmul (np_norm env orig) (np_norm env (repeat vzero (ncols t)))))
                 threshold = false).
  { apply zero_or_nan_fails, vdiv_zero_or_nan, np_dot_zeros. }
  rewrite Hc. unfold_run. cbn [fst snd app]. now split.
Qed.

End VerifierMore.

Lemma all_padding_never_passes_witness :
  match result_of (compare good_env [of_Z 3; of_Z 4] (mkOutput demo_hidden)
                     (mkEncoded [0; 0; 0]%Z [0; 0; 0]%Z None) true 0) with
  | Ok b =>
      b = false
      /\ verdicts (log_of (compare good_env [of_Z 3; of_Z 4] (mkOutput demo_hidden)
                             (mkEncoded [0; 0; 0]%Z [0; 0; 0]%Z None) true 0)) = [false]
  | Raise _ =>
      verdicts (log_of (compare good_env [of_Z 3; of_Z 4] (mkOutput demo_hidden)
                          (mkEncoded [0; 0; 0]%Z [0; 0; 0]%Z None) true 0)) = []
  end.
Proof.
  apply (all_padding_never_passes good_env [of_Z 3; of_Z 4] (mkOutput demo_hidden)
           (mkEncoded [0; 0; 0]%Z [0; 0; 0]%Z None) true 0).
  - unfold all_finite. cbn. repeat constructor.
  - reflexivity.
Defined.

Lemma error_lines_app (l l' : list event) :
  error_lines (l ++ l') = error_lines l ++ error_lines l'.
Proof. apply flat_map_app. Qed.

Lemma tokenize_lengths_app (l l' : list event) :
  tokenize_lengths (l ++ l') = tokenize_lengths l ++ tokenize_lengths l'.
Proof. apply flat_map_app. Qed.

Lemma map_snd_enumerate {A : Type} (start : nat) (xs : list A) :
  map snd (enumerate start xs) = xs.
Proof.
  revert start. induction xs as [|x xs IH]; intros start; cbn; trivial.
  now rewrite IH.
Qed.

Section VerifierShape.
Context {S : Type} (env : Env S).

Lemma compare_silent (orig : list val) (out : ModelOutput) (encoded : Encoded)
    (all_match : bool) (s : S) :
  tested (log_of (compare env orig out encoded all_match s)) = []
  /\ onnx_calls (log_of (compare env orig out encoded all_match s)) = []
  /\ error_lines (log_of (compare env orig out encoded all_match s)) = []
  /\ tokenize_lengths (log_of (compare env orig out encoded all_match s)) = [].
Proof.
  unfold compare.
  destruct (mean_pooling out (attention_mask encoded)) as [emb|];
    [|now repeat split].
  destruct (Nat.eqb (length emb) 1); [now repeat split|].
  destruct (negb (Nat.eqb (length orig) (length emb))); [now repeat split|].
  unfold_run. cbn [fst snd app].
  destruct (vgt _ threshold); now repeat split.
Qed.

(** What one pass through the loop body leaves in the log. *)
Lemma probe_shape (n i : nat) (sentence : string) (all_match : bool) (s : S) :
  tested (log_of (probe env n i sentence all_match s)) = [sentence]
  /\ Forall (fun k => k = 512%Z)
            (tokenize_lengths (log_of (probe env n i sentence all_match s)))
  /\ length (error_lines (log_of (probe env n i sentence all_match s))) <= 1
  /\ 2 * length (error_lines (log_of (probe env n i sentence all_match s)))
     <= length (onnx_calls (log_of (probe env n i sentence all_match s)))
  /\ length (onnx_calls (log_of (probe env n i sentence all_match s)))
     <= 1 + length (error_lines (log_of (probe env n i sentence all_match s))).
Proof.
  unfold probe, call_onnx. unfold_run.
  run_call (encode env sentence s) as orig s1; [|cbn; repeat split; auto].
  run_call (tokenizer env sentence 512%Z s1) as enc s2; [|cbn; repeat split; auto].
  run_call (onnx_model env enc s2) as out s3.
  - destruct (compare_silent orig out enc all_match s3) as (Ht & Hc & He & Hk).
    destruct (compare env orig out enc all_match s3) as [[r l] s4].
    unfold log_of in *. cbn [fst snd] in *.
    cbn [tested onnx_calls error_lines tokenize_lengths flat_map app].
    fold (tested l) (onnx_calls l) (error_lines l) (tokenize_lengths l).
    rewrite Ht, Hc, He, Hk. cbn. repeat split; auto.
  - run_call (onnx_model env (set_decoder_input_ids enc [[0%Z]]) s3) as out s4;
      [|cbn; repeat split; auto].
    destruct (compare_silent orig out (set_decoder_input_ids enc [[0%Z]]) all_match s4)
      as (Ht & Hc & He & Hk).
    destruct (compare env orig out (set_decoder_input_ids enc [[0%Z]]) all_match s4)
      as [[r l] s5].
    unfold log_of in *. cbn [fst snd] in *.
    cbn [tested onnx_calls error_lines tokenize_lengths flat_map app].
    fold (tested l) (onnx_calls l) (error_lines l) (tokenize_lengths l).
    rewrite Ht, Hc, He, Hk. cbn. repeat split; auto.
Qed.

Lemma for_each_shape (n : nat) (items : list (nat * string)) (all_match : bool) (s : S) :
  (exists k, tested (log_of (for_each env n items all_match s))
             = firstn k (map snd items))
  /\ (forall b, result_of (for_each env n items all_match s) = Ok b ->
                tested (log_of (for_each env n items all_match s)) = map snd items)
  /\ Forall (fun k => k = 512%Z)
            (tokenize_lengths (log_of (for_each env n items all_match s)))
  /\ length (error_lines (log_of (for_each env n items all_match s)))
     <= length (tested (log_of (for_each env n items all_match s)))
  /\ 2 * length (error_lines (log_of (for_each env n items all_match s)))
     <= length (onnx_calls (log_of (for_each env n items all_match s)))
  /\ length (onnx_calls (log_of (for_each env n items all_match s)))
     <= length (tested (log_of (for_each env n items all_match s)))
        + length (error_lines (log_of (for_each env n items all_match s))).
Proof.
  revert all_match s.
  induction items as [|[i sentence] rest IH]; intros all_match s.
  - cbn. repeat split; auto. now exists 0.
  - cbn [for_each]. unfold bind.
    destruct (probe_shape n i sentence all_match s) as (Ht & Hk & He & Hlo & Hhi).
    destruct (probe env n i sentence all_match s) as [[[b | e] l] s1];
      unfold log_of, result_of in *; cbn [fst snd map] in *.
    + destruct (IH b s1) as ([k Ht'] & Hok & Hk' & He' & Hlo' & Hhi').
      destruct (for_each env n rest b s1) as [[r l'] s2]. cbn [fst snd] in *.
      rewrite tested_app, tokenize_lengths_app, error_lines_app, onnx_calls_app, Ht.
      rewrite !length_app. cbn [app length]. repeat split.
      * exists (Datatypes.S k). cbn [firstn]. now rewrite Ht'.
      * intros b' Hb'. now rewrite (Hok b' Hb').
      * apply Forall_app. now split.
      * lia.
      * lia.
      * lia.
    + rewrite Ht. cbn [length]. repeat split; trivial; try lia.
      * now exists 1.
      * discriminate.
Qed.

(** The three ways a run of the verifier can go. *)
Lemma verify_cases (onnx_dir : string) (s : S) :
  (path_exists env (PathOf onnx_dir) s = false
   /\ verify_onnx_export env onnx_dir s
      = (Ok false, [EvPrint (LNotFound (PathOf onnx_dir)); EvPrint LRunExportFirst], s))
  \/ (path_exists env (PathOf onnx_dir) s = true
      /\ exists e k s',
           verify_onnx_export env onnx_dir s
           = (Raise e, firstn k (preamble onnx_dir), s') /\ k <= 5)
  \/ (path_exists env (PathOf onnx_dir) s = true
      /\ exists s',
           verify_onnx_export env onnx_dir s
           = match for_each env (length test_sentences)
                     (enumerate 1 test_sentences) true s' with
             | (Ok b, l, s'') =>
                 (Ok b,
                  preamble onnx_dir ++ l ++ EvPrint (LRule "=" 80)
                    :: (if b then [EvPrint LAllPassed; EvPrint (LUpload (PathOf onnx_dir))]
                        else [EvPrint LSomeFailed]),
                  s'')
             | (Raise e, l, s'') => (Raise e, preamble onnx_dir ++ l, s'')
             end).
Proof.
  destruct (path_exists env (PathOf onnx_dir) s) eqn:Hp.
  2:{ left. split; trivial. unfold verify_onnx_export. now rewrite Hp. }
  right. unfold verify_onnx_export, probe_all. rewrite Hp. cbn [negb]. unfold_run.
  run_call (SentenceTransformer env "sentence-transformers/gtr-t5-base" s) as u s1.
  2:{ left. split; trivial. eexists _, 2, _. split; [reflexivity | lia]. }
  run_call (ORT_from_pretrained env (PathOf onnx_dir) s1) as u' s2.
  2:{ left. split; trivial. eexists _, 4, _. split; [reflexivity | lia]. }
  run_call (AutoTokenizer_from_pretrained env (PathOf onnx_dir) s2) as u'' s3.
  2:{ left. split; trivial. eexists _, 5, _. split; [reflexivity | lia]. }
  right. split; trivial. exists s3.
  destruct (for_each env (length test_sentences) (enumerate 1 test_sentences) true s3)
    as [[[[|] | e] l] s4]; reflexivity.
Qed.

End VerifierShape.

Section VerifierExtras.
Context {S : Type} (env : Env S).

(** X6.  A FAIL does not end the loop.  When the directory exists, a run
    that returns has probed all four sentences, in order, and printed a
    verdict for each; a run that raises has probed the first few of them,
    in order. *)
Theorem all_sentences_probed (onnx_dir : string) (s : S) :
  path_exists env (PathOf onnx_dir) s = true ->
  match result_of (verify_onnx_export env onnx_dir s) with
  | Ok _ =>
      tested (log_of (verify_onnx_export env onnx_dir s)) = test_sentences
      /\ length (verdicts (log_of (verify_onnx_export env onnx_dir s)))
         = length test_sentences
  | Raise _ =>
      exists k, tested (log_of (verify_onnx_export env onnx_dir s))
                = firstn k test_sentences
  end.
Proof.
  intros Hp.
  destruct (verify_cases env onnx_dir s) as [[Hp' _] | [(_ & e & k & s' & E & Hk) | (_ & s' & E)]].
  - congruence.
  - rewrite E. unfold result_of, log_of. cbn [fst snd]. exists 0.
    do 6 (destruct k as [|k]; [reflexivity|]). lia.
  - rewrite E.
    destruct (for_each_shape env (length test_sentences) (enumerate 1 test_sentences) true s')
      as ([k Hk] & Hok & _).
    destruct (for_each_run env (length test_sentences) (enumerate 1 test_sentences) true s')
      as (_ & Hr).
    rewrite map_snd_enumerate in *.
    destruct (for_each env (length test_sentences) (enumerate 1 test_sentences) true s')
      as [[[b | e] l] s'']; unfold result_of, log_of in *; cbn [fst snd] in *.
    + destruct Hr as (Hlen & _).
      assert (Hlen' : length (verdicts l) = length test_sentences)
        by (rewrite Hlen; reflexivity).
      rewrite tested_app, verdicts_app, tested_app, verdicts_app, (Hok b eq_refl).
      destruct b; cbn; rewrite ?app_nil_r; split; trivial;
        rewrite length_app; cbn; lia.
    + exists k. rewrite tested_app. exact Hk.
Qed.

(** X7.  No sentence is retried twice and no retry is silent: in every run
    the graph is called at most once per probed sentence plus once per
    error line printed, at least twice per error line, and at most one
    error line is printed per probed sentence. *)
Theorem retry_at_most_once (onnx_dir : string) (s : S) :
  length (error_lines (log_of (verify_onnx_export env onnx_dir s)))
    <= length (tested (log_of (verify_onnx_export env onnx_dir s)))
  /\ 2 * length (error_lines (log_of (verify_onnx_export env onnx_dir s)))
     <= length (onnx_calls (log_of (verify_onnx_export env onnx_dir s)))
  /\ length (onnx_calls (log_of (verify_onnx_export env onnx_dir s)))
     <= length (tested (log_of (verify_onnx_export env onnx_dir s)))
        + length (error_lines (log_of (verify_onnx_export env onnx_dir s))).
Proof.
  destruct (verify_cases env onnx_dir s) as [[_ E] | [(_ & e & k & s' & E & Hk) | (_ & s' & E)]];
    rewrite E.
  - cbn. lia.
  - unfold log_of. cbn [fst snd].
    do 6 (destruct k as [|k]; [cbn; lia|]). lia.
  - destruct (for_each_shape env (length test_sentences) (enumerate 1 test_sentences) true s')
      as (_ & _ & _ & He & Hlo & Hhi).
    destruct (for_each env (length test_sentences) (enumerate 1 test_sentences) true s')
      as [[[b | e] l] s'']; unfold log_of in *; cbn [fst snd] in *.
    + rewrite !error_lines_app, !tested_app, !onnx_calls_app, !length_app.
      destruct b; cbn; lia.
    + rewrite !error_lines_app, !tested_app, !onnx_calls_app, !length_app. cbn. lia.
Qed.

(** X8.  When the directory exists but a model cannot be loaded, the
    exception of the failing load ends the run: nothing after it is loaded
    and no sentence is probed.  This holds for the reference model, the
    ONNX model and the tokenizer alike. *)
Theorem load_failure_aborts (onnx_dir : string) (s : S) (e : exn) :
  path_exists env (PathOf onnx_dir) s = true ->
  fst (SentenceTransformer env "sentence-transformers/gtr-t5-base" s) = Raise e
  \/ (exists u s1,
        SentenceTransformer env "sentence-transformers/gtr-t5-base" s = (Ok u, s1)
        /\ (fst (ORT_from_pretrained env (PathOf onnx_dir) s1) = Raise e
            \/ exists u' s2,
                 ORT_from_pretrained env (PathOf onnx_dir) s1 = (Ok u', s2)
                 /\ fst (AutoTokenizer_from_pretrained env (PathOf onnx_dir) s2)
                    = Raise e)) ->
  result_of (verify_onnx_export env onnx_dir s) = Raise e
  /\ forallb (fun ev => match ev with
                        | EvPrint LLoadingOriginal | EvPrint LLoadingOnnx
                        | EvLoadSentenceTransformer _ | EvLoadOnnxModel _
                        | EvLoadTokenizer _ => true
                        | _ => false
                        end)
             (log_of (verify_onnx_export env onnx_dir s)) = true.
Proof.
  intros Hp H. unfold verify_onnx_export, probe_all. rewrite Hp. cbn [negb].
  unfold_run.
  destruct H as [H | (u & s1 & E1 & H)].
  - destruct (SentenceTransformer env _ s) as [r s1]. cbn in H. subst r. now split.
  - rewrite E1. cbn [fst snd app].
    destruct H as [H | (u' & s2 & E2 & H)].
    + destruct (ORT_from_pretrained env _ s1) as [r s2]. cbn in H. subst r. now split.
    + rewrite E2. cbn [fst snd app].
      destruct (AutoTokenizer_from_pretrained env _ s2) as [r s3]. cbn in H. subst r.
      now split.
Qed.

End VerifierExtras.

Lemma all_sentences_probed_witness :
  match result_of (verify_onnx_export mixed_env default_dir 0) with
  | Ok _ =>
      tested (log_of (verify_onnx_export mixed_env default_dir 0)) = test_sentences
      /\ length (verdicts (log_of (verify_onnx_export mixed_env default_dir 0)))
         = length test_sentences
  | Raise _ =>
      exists k, tested (log_of (verify_onnx_export mixed_env default_dir 0))
                = firstn k test_sentences
  end.
Proof. apply (all_sentences_probed mixed_env default_dir 0). reflexivity. Defined.

Lemma load_failure_aborts_witness :
  result_of (verify_onnx_export offline_env default_dir 0) = Raise "OSError"%string
  /\ forallb (fun ev => match ev with
                        | EvPrint LLoadingOriginal | EvPrint LLoadingOnnx
                        | EvLoadSentenceTransformer _ | EvLoadOnnxModel _
                        | EvLoadTokenizer _ => true
                        | _ => false
                        end)
             (log_of (verify_onnx_export offline_env default_dir 0)) = true.
Proof.
  apply (load_failure_aborts offline_env default_dir 0 "OSError"%string).
  - reflexivity.
  - left. reflexivity.
Defined.

Example first_fail_still_probes_all :
  result_of (verify_onnx_export mixed_env default_dir 0) = Ok false
  /\ verdicts (log_of (verify_onnx_export mixed_env default_dir 0))
     = [false; true; true; true].
Proof. split; reflexivity. Qed.

(** ** More on the exporter, and on the two scripts together *)

Lemma written_before_metadata (output_dir : string) (k : nat) :
  Exporter.written (firstn k (Exporter.before_metadata output_dir)) = [].
Proof. do 13 (destruct k as [|k]; [reflexivity|]). reflexivity. Qed.

Lemma file_lines_before_metadata (output_dir : string) (k : nat) :
  Exporter.file_lines (firstn k (Exporter.before_metadata output_dir)) = [].
Proof. do 13 (destruct k as [|k]; [reflexivity|]). reflexivity. Qed.

Lemma no_success_before_metadata (output_dir : string) (k : nat) :
  ~ In (EvPrint LExportComplete) (firstn k (Exporter.before_metadata output_dir)).
Proof.
  intros H.
  assert (G : In (EvPrint LExportComplete) (Exporter.before_metadata output_dir)).
  { rewrite <- (firstn_skipn k). apply in_or_app. now left. }
  cbn in G. repeat (destruct G as [G | G]; [discriminate|]). exact G.
Qed.

Section ExporterExtras.
Context {S : Type} (env : Exporter.Env S).

(** The ways a run of the exporter can go: it raises before the metadata
    is written, or it gets to writing it. *)
Lemma export_cases (output_dir : string) (s : S) :
  (exists e k l ev s',
     Exporter.export_to_onnx env output_dir s = (Raise e, l ++ [ev], s')
     /\ l ++ [ev] = firstn k (Exporter.before_metadata output_dir)
     /\ is_print ev = false)
  \/ (exists r rest s',
        Exporter.export_to_onnx env output_dir s
        = (r, Exporter.before_metadata output_dir
              ++ EvWriteJson (PathJoin (PathOf output_dir) "metadata.json")
                   (Exporter.metadata "sentence-transformers/gtr-t5-base") 2
                 :: rest, s')
        /\ match r with
           | Raise _ =>
               rest = []
               \/ rest = [EvPrint LExportComplete;
                          EvPrint (LModelSavedTo (PathOf output_dir));
                          EvPrint LFilesCreated; EvIterdir (PathOf output_dir)]
           | Ok _ =>
               exists names s7 s8,
                 Exporter.iterdir env (PathOf output_dir) s7 = (Ok names, s8)
                 /\ rest = [EvPrint LExportComplete;
                            EvPrint (LModelSavedTo (PathOf output_dir));
                            EvPrint LFilesCreated; EvIterdir (PathOf output_dir)]
                           ++ map (fun f => EvPrint (LFileName f)) names
           end).
Proof.
  unfold Exporter.export_to_onnx, bind, call, print.
  destruct (Exporter.mkdir env (PathOf output_dir) s) as [[u1 | e] s1]; cbn [fst snd app].
  2:{ left. exists e, 1, (firstn 0 (Exporter.before_metadata output_dir)).
      eexists _, s1. repeat split. }
  destruct (Exporter.AutoModel_from_pretrained env "sentence-transformers/gtr-t5-base" s1)
    as [[u2 | e] s2]; cbn [fst snd app].
  2:{ left. exists e, 5, (firstn 4 (Exporter.before_metadata output_dir)).
      eexists _, s2. repeat split. }
  destruct (Exporter.AutoTokenizer_from_pretrained env "sentence-transformers/gtr-t5-base" s2)
    as [[u3 | e] s3]; cbn [fst snd app].
  2:{ left. exists e, 6, (firstn 5 (Exporter.before_metadata output_dir)).
      eexists _, s3. repeat split. }
  destruct (Exporter.tokenizer env "This is a test sentence for export." 512%Z s3)
    as [[inputs | e] s4]; cbn [fst snd app].
  2:{ left. exists e, 8, (firstn 7 (Exporter.before_metadata output_dir)).
      eexists _, s4. repeat split. }
  destruct (Exporter.onnx_export env inputs (PathJoin (PathOf output_dir) "model.onnx") 14%Z s4)
    as [[u5 | e] s5]; cbn [fst snd app].
  2:{ left. exists e, 10, (firstn 9 (Exporter.before_metadata output_dir)).
      eexists _, s5. repeat split. }
  destruct (Exporter.save_pretrained env (PathOf output_dir) s5) as [[u6 | e] s6];
    cbn [fst snd app].
  2:{ left. exists e, 12, (firstn 11 (Exporter.before_metadata output_dir)).
      eexists _, s6. repeat split. }
  right.
  destruct (Exporter.json_dump env (PathJoin (PathOf output_dir) "metadata.json")
              (Exporter.metadata "sentence-transformers/gtr-t5-base") 2%Z s6)
    as [[u7 | e] s7]; cbn [fst snd app].
  2:{ eexists (Raise e), [], s7. split; [reflexivity | now left]. }
  destruct (Exporter.iterdir env (PathOf output_dir) s7) as [[names | e] s8] eqn:Ei;
    cbn [fst snd app].
  2:{ eexists (Raise e), _, s8. split; [reflexivity | now right]. }
  rewrite print_names_run. cbn [fst snd app].
  eexists (Ok tt), _, s8. split; [reflexivity|].
  exists names, s7, s8. now split.
Qed.

(** X9.  The metadata file is the last thing the exporter writes, and it
    writes it once: a run that wrote [metadata.json] has before that, in
    this order, created the directory, loaded model and tokenizer,
    tokenized the dummy sentence with [max_length = 512], exported the
    graph to [model.onnx] with opset 14 and saved the tokenizer; nothing is
    written after it. *)
Theorem metadata_written_last (output_dir : string) (s : S) :
  Exporter.written (log_of (Exporter.export_to_onnx env output_dir s)) <> [] ->
  exists rest,
    log_of (Exporter.export_to_onnx env output_dir s)
    = Exporter.before_metadata output_dir
      ++ EvWriteJson (PathJoin (PathOf output_dir) "metadata.json")
           (Exporter.metadata "sentence-transformers/gtr-t5-base") 2
      :: rest
    /\ forallb (fun ev => match ev with
                          | EvPrint _ | EvIterdir _ => true
                          | _ => false
                          end) rest = true.
Proof.
  intros Hw.
  destruct (export_cases output_dir s)
    as [(e & k & l & ev & s' & E & El & _) | (r & rest & s' & E & Hr)]; rewrite E in *;
    unfold log_of in *; cbn [fst snd] in *.
  - now rewrite El, written_before_metadata in Hw.
  - exists rest. split; trivial.
    destruct r as [u | e].
    + destruct Hr as (names & s7 & s8 & _ & ->). rewrite forallb_app.
      apply andb_true_intro. split; [reflexivity|].
      apply forallb_forall. intros ev Hin. apply in_map_iff in Hin.
      now destruct Hin as [f [<- _]].
    + destruct Hr as [-> | ->]; reflexivity.
Qed.

(** X10.  The exporter handles no error: when a run raises, the last event
    of its log is the call that raised, not a line of output, and neither
    the success line nor any file name has been printed. *)
Theorem export_failure_stops (output_dir : string) (s : S) (e : exn) :
  result_of (Exporter.export_to_onnx env output_dir s) = Raise e ->
  (exists l ev,
     log_of (Exporter.export_to_onnx env output_dir s) = l ++ [ev]
     /\ is_print ev = false)
  /\ Exporter.file_lines (log_of (Exporter.export_to_onnx env output_dir s)) = []
  /\ (In (EvPrint LExportComplete) (log_of (Exporter.export_to_onnx env output_dir s)) ->
      Exporter.written (log_of (Exporter.export_to_onnx env output_dir s)) <> []).
Proof.
  intros Hr.
  destruct (export_cases output_dir s)
    as [(e' & k & l & ev & s' & E & El & Hev) | (r & rest & s' & E & Hrest)];
    rewrite E in *;
    unfold result_of, log_of in *; cbn [fst snd] in *.
  - repeat split.
    + now exists l, ev.
    + rewrite El. apply file_lines_before_metadata.
    + rewrite El. intros H. now apply no_success_before_metadata in H.
  - subst r. destruct Hrest as [-> | ->]; repeat split.
    + eexists _, _. split; reflexivity.
    + intros _. discriminate.
    + exists (Exporter.before_metadata output_dir
              ++ [EvWriteJson (PathJoin (PathOf output_dir) "metadata.json")
                    (Exporter.metadata "sentence-transformers/gtr-t5-base") 2;
                  EvPrint LExportComplete;
                  EvPrint (LModelSavedTo (PathOf output_dir));
                  EvPrint LFilesCreated]), (EvIterdir (PathOf output_dir)).
      split; reflexivity.
    + intros _. discriminate.
Qed.

End ExporterExtras.

Lemma file_lines_names (names : list string) :
  Exporter.file_lines (map (fun f => EvPrint (LFileName f)) names) = names.
Proof.
  unfold Exporter.file_lines.
  induction names as [|f names IH]; cbn [map flat_map app]; congruence.
Qed.

Section ExporterListing.
Context {S : Type} (env : Exporter.Env S).

(** X11.  A run of the exporter that returns ends by printing the success
    line and then exactly the entries [iterdir] returned for the output
    directory, one line each, in order. *)
Theorem export_lists_directory (output_dir : string) (s : S) (u : unit) :
  result_of (Exporter.export_to_onnx env output_dir s) = Ok u ->
  exists names s7 s8,
    Exporter.iterdir env (PathOf output_dir) s7 = (Ok names, s8)
    /\ Exporter.file_lines (log_of (Exporter.export_to_onnx env output_dir s)) = names
    /\ exists l,
         log_of (Exporter.export_to_onnx env output_dir s)
         = l ++ EvPrint LExportComplete
               :: EvPrint (LModelSavedTo (PathOf output_dir))
               :: EvPrint LFilesCreated
               :: EvIterdir (PathOf output_dir)
               :: map (fun f => EvPrint (LFileName f)) names.
Proof.
  intros Hr.
  destruct (export_cases env output_dir s)
    as [(e' & k & l & ev & s' & E & _) | (r & rest & s' & E & Hrest)];
    rewrite E in *; unfold result_of, log_of in *; cbn [fst snd] in *;
    [discriminate|].
  subst r. destruct Hrest as (names & s7 & s8 & Hi & ->).
  exists names, s7, s8. split; [exact Hi|]. split.
  - unfold Exporter.file_lines. rewrite flat_map_app. cbn [flat_map app].
    fold (Exporter.file_lines (map (fun f => EvPrint (LFileName f)) names)).
    now rewrite file_lines_names.
  - eexists (_ ++ [_]). rewrite <- app_assoc. reflexivity.
Qed.

End ExporterListing.

Lemma metadata_written_last_witness :
  exists rest,
    log_of (Exporter.export_to_onnx export_env default_dir 0)
    = Exporter.before_metadata default_dir
      ++ EvWriteJson (PathJoin (PathOf default_dir) "metadata.json")
           (Exporter.metadata "sentence-transformers/gtr-t5-base") 2
      :: rest
    /\ forallb (fun ev => match ev with
                          | EvPrint _ | EvIterdir _ => true
                          | _ => false
                          end) rest = true.
Proof. apply (metadata_written_last export_env default_dir 0). discriminate. Defined.

Lemma export_failure_stops_witness :
  (exists l ev,
     log_of (Exporter.export_to_onnx export_fails_env default_dir 0) = l ++ [ev]
     /\ is_print ev = false)
  /\ Exporter.file_lines (log_of (Exporter.export_to_onnx export_fails_env default_dir 0)) = []
  /\ (In (EvPrint LExportComplete)
         (log_of (Exporter.export_to_onnx export_fails_env default_dir 0)) ->
      Exporter.written (log_of (Exporter.export_to_onnx export_fails_env default_dir 0)) <> []).
Proof.
  apply (export_failure_stops export_fails_env default_dir 0 "RuntimeError"%string).
  reflexivity.
Defined.

Lemma export_lists_directory_witness :
  exists names s7 s8,
    Exporter.iterdir export_env (PathOf default_dir) s7 = (Ok names, s8)
    /\ Exporter.file_lines (log_of (Exporter.export_to_onnx export_env default_dir 0)) = names
    /\ exists l,
         log_of (Exporter.export_to_onnx export_env default_dir 0)
         = l ++ EvPrint LExportComplete
               :: EvPrint (LModelSavedTo (PathOf default_dir))
               :: EvPrint LFilesCreated
               :: EvIterdir (PathOf default_dir)
               :: map (fun f => EvPrint (LFileName f)) names.
Proof. apply (export_lists_directory export_env default_dir 0 tt). reflexivity. Defined.

Example failed_export_writes_nothing :
  Exporter.written (log_of (Exporter.export_to_onnx export_fails_env default_dir 0)) = []
  /\ result_of (Exporter.export_to_onnx export_fails_env default_dir 0)
     = Raise "RuntimeError"%string.
Proof. split; reflexivity. Qed.

(** ** The two scripts together *)

Lemma probe_event_no_reference (l : list event) :
  forallb probe_event l = true -> loaded_references l = [].
Proof.
  induction l as [|e l IH]; trivial. cbn [forallb]. intros H.
  apply andb_prop in H. destruct H as [He Hl].
  destruct e; try discriminate; cbn; now apply IH.
Qed.

Section VerifierEvents.
Context {S : Type} (env : Env S).

Lemma compare_events (orig : list val) (out : ModelOutput) (encoded : Encoded)
    (all_match : bool) (s : S) :
  forallb probe_event (log_of (compare env orig out encoded all_match s)) = true.
Proof.
  unfold compare.
  destruct (mean_pooling out (attention_mask encoded)) as [emb|]; trivial.
  destruct (Nat.eqb (length emb) 1); trivial.
  destruct (negb (Nat.eqb (length orig) (length emb))); trivial.
  unfold_run. cbn [fst snd app]. now destruct (vgt _ threshold).
Qed.

Lemma probe_events (n i : nat) (sentence : string) (all_match : bool) (s : S) :
  forallb probe_event (log_of (probe env n i sentence all_match s)) = true.
Proof.
  unfold probe, call_onnx. unfold_run.
  run_call (encode env sentence s) as orig s1; trivial.
  run_call (tokenizer env sentence 512%Z s1) as enc s2; trivial.
  run_call (onnx_model env enc s2) as out s3.
  - pose proof (compare_events orig out enc all_match s3) as H.
    destruct (compare env orig out enc all_match s3) as [[r l] s4].
    exact H.
  - run_call (onnx_model env (set_decoder_input_ids enc [[0%Z]]) s3) as out s4; trivial.
    pose proof (compare_events orig out (set_decoder_input_ids enc [[0%Z]]) all_match s4)
      as H.
    destruct (compare env orig out (set_decoder_input_ids enc [[0%Z]]) all_match s4)
      as [[r l] s5].
    exact H.
Qed.

Lemma for_each_events (n : nat) (items : list (nat * string)) (all_match : bool) (s : S) :
  forallb probe_event (log_of (for_each env n items all_match s)) = true.
Proof.
  revert all_match s. induction items as [|[i sentence] rest IH]; intros all_match s;
    trivial.
  cbn [for_each]. unfold bind.
  pose proof (probe_events n i sentence all_match s) as Hp.
  destruct (probe env n i sentence all_match s) as [[[b | e] l] s1]; [|exact Hp].
  specialize (IH b s1).
  destruct (for_each env n rest b s1) as [[r l'] s2].
  unfold log_of in *. cbn [fst snd] in *. rewrite forallb_app. now rewrite Hp, IH.
Qed.


End VerifierEvents.

(** X13.  The two scripts agree on their constants: whatever run of the
    exporter wrote a metadata object, every tokenizer call of every run of
    the verifier truncates at that object's [max_tokens], and the reference
    model a verifier run loads is the one named by its [model_name]. *)
Theorem scripts_agree {S S' : Type} (venv : Verifier.Env S) (xenv : Exporter.Env S')
    (onnx_dir output_dir : string) (s : S) (s' : S')
    (p : Path) (md : list (string * json)) :
  In (p, md) (Exporter.written (log_of (Exporter.export_to_onnx xenv output_dir s'))) ->
  Forall (fun n => Exporter.lookup "max_tokens" md = Some (JInt n))
         (tokenize_lengths (log_of (verify_onnx_export venv onnx_dir s)))
  /\ Forall (fun nm => Exporter.lookup "model_name" md = Some (JString nm))
            (loaded_references (log_of (verify_onnx_export venv onnx_dir s))).
Proof.
  intros Hin.
  assert (Hmd : md = Exporter.metadata "sentence-transformers/gtr-t5-base").
  { destruct (export_cases xenv output_dir s')
      as [(e' & k & l & ev & t & E & El & _) | (r & rest & t & E & Hrest)];
      rewrite E in Hin; unfold log_of in Hin; cbn [fst snd] in Hin.
    - now rewrite El, written_before_metadata in Hin.
    - unfold Exporter.written in Hin. rewrite flat_map_app in Hin.
      cbn [flat_map app] in Hin.
      fold (Exporter.written rest) in Hin.
      assert (Hrest' : Exporter.written rest = []).
      { destruct r as [u | e].
        - destruct Hrest as (names & s7 & s8 & _ & ->).
          unfold Exporter.written. rewrite flat_map_app. cbn [flat_map app].
          apply written_file_names.
        - destruct Hrest as [-> | ->]; reflexivity. }
      rewrite Hrest' in Hin. destruct Hin as [[= _ <-] | []]. reflexivity. }
  subst md.
  destruct (verify_cases venv onnx_dir s)
    as [[_ E] | [(_ & e & k & t & E & Hk) | (_ & t & E)]]; rewrite E.
  - split; constructor.
  - unfold log_of. cbn [fst snd].
    do 6 (destruct k as [|k]; [split; repeat constructor|]). lia.
  - destruct (for_each_shape venv (length test_sentences) (enumerate 1 test_sentences) true t)
      as (_ & _ & Hk & _).
    pose proof (for_each_events venv (length test_sentences) (enumerate 1 test_sentences) true t)
      as Hev.
    apply probe_event_no_reference in Hev.
    destruct (for_each venv (length test_sentences) (enumerate 1 test_sentences) true t)
      as [[[b | e] l] t']; unfold log_of in *; cbn [fst snd] in *.
    + unfold loaded_references in *. rewrite tokenize_lengths_app, flat_map_app.
      rewrite tokenize_lengths_app, (flat_map_app _ l). rewrite Hev.
      destruct b; cbn; rewrite ?app_nil_r; split; try (repeat constructor).
      all: revert Hk; apply Forall_impl; now intros n ->.
    + unfold loaded_references in *. rewrite tokenize_lengths_app, flat_map_app, Hev.
      cbn. rewrite ?app_nil_r. split; [|repeat constructor].
      revert Hk. apply Forall_impl. now intros n ->.
Qed.

Lemma scripts_agree_witness :
  Forall (fun n => Exporter.lookup "max_tokens"
                     (Exporter.metadata "sentence-transformers/gtr-t5-base")
                   = Some (JInt n))
         (tokenize_lengths (log_of (verify_onnx_export good_env default_dir 0)))
  /\ Forall (fun nm => Exporter.lookup "model_name"
                         (Exporter.metadata "sentence-transformers/gtr-t5-base")
                       = Some (JString nm))
            (loaded_references (log_of (verify_onnx_export good_env default_dir 0))).
Proof.
  apply (scripts_agree good_env export_env default_dir default_dir 0 0
           (PathJoin (PathOf default_dir) "metadata.json")).
  left. reflexivity.
Defined.
